(** * Game2048Viewer: a shallow embedding of [env_viewer.py]

    The viewer is glue over a plotting library.  Its observable behaviour
    is the sequence of calls it issues on figures and axes, the figure
    registry it consults, and the files it asks the library to write.  The
    embedding keeps exactly that: every axes and every figure carries the
    chronological log of the calls made on it, the registry is a finite
    map from figure names to figures, and Python exceptions are explicit
    results.  The method [_clear_display], which nothing calls, is left
    out. *)

From Stdlib Require Import ZArith QArith Qround String DecimalString DecimalPos DecimalZ.
From stdpp Require Import gmap strings list fin_maps.

Local Open Scope string_scope.
Local Open Scope list_scope.
Local Open Scope Z_scope.

(** ** Exceptions and the state-and-error monad *)

(** Dictionary keys of [COLORS]: tile values and role names. *)
Inductive Key : Type :=
| KInt (z : Z)
| KStr (s : string).

#[global] Instance Key_eq_dec : EqDecision Key.
Proof. solve_decision. Defined.

#[global] Instance Key_countable : Countable Key.
Proof.
  refine (inj_countable'
            (fun k => match k with KInt z => inl z | KStr s => inr s end)
            (fun x => match x with inl z => KInt z | inr s => KStr s end) _).
  by intros [].
Defined.

(** [Dangling] is not a Python exception: it marks a handle to a figure or
    an axes that the store does not hold.  Python references cannot
    dangle, and no run of the viewer produces it (see
    [get_fig_ax_handles]). *)
Inductive Exn : Type :=
| KeyError (k : Key)
| IndexError
| RuntimeError
| Dangling.

Inductive Result (A : Type) : Type :=
| OK (a : A)
| Raise (e : Exn).
Arguments OK {A} a.
Arguments Raise {A} e.

(** A computation over a mutable store [S].  The store is returned in both
    outcomes: what was drawn before an exception stays drawn. *)
Definition St (S A : Type) : Type := S -> S * Result A.

Definition ret {S A} (a : A) : St S A := fun s => (s, OK a).

Definition raise {S A} (e : Exn) : St S A := fun s => (s, Raise e).

Definition bind {S A B} (m : St S A) (k : A -> St S B) : St S B :=
  fun s => match m s with
           | (s', OK a) => k a s'
           | (s', Raise e) => (s', Raise e)
           end.

Definition lift_result {S A} (r : Result A) : St S A := fun s => (s, r).

Notation "'let*' x := m 'in' k" := (bind m (fun x => k))
  (at level 10, x name, m at level 100, k at level 200).
Notation "m ;; k" := (bind m (fun _ => k))
  (at level 100, k at level 200, right associativity).

(** [for x in xs: body(x)], left to right, stopping at the first
    exception. *)
Fixpoint for_each {S A} (xs : list A) (body : A -> St S unit) : St S unit :=
  match xs with
  | [] => ret tt
  | x :: xs' => body x ;; for_each xs' body
  end.

(** ** Python built-ins used by the viewer *)

(** [range(lo, hi)]. *)
Definition range (lo hi : Z) : list Z := seqZ lo (hi - lo).

(** [str(n)] for an integer. *)
Definition str (n : Z) : string := NilZero.string_of_int (Z.to_int n).

(** [int(x)] for a finite number: truncation towards zero. *)
Definition int (x : Q) : Z := Z.quot (Qnum x) (Z.pos (Qden x)).

(** [xs[i]] on a Python list: negative indices count from the end. *)
Definition getitem {A} (xs : list A) (i : Z) : Result A :=
  let n := Z.of_nat (length xs) in
  let j := if i <? 0 then i + n else i in
  if (0 <=? j) && (j <? n)
  then match xs !! Z.to_nat j with Some a => OK a | None => Raise IndexError end
  else Raise IndexError.

(** [d[k]] on a dictionary. *)
Definition dict_getitem {V} (d : gmap Key V) (k : Key) : Result V :=
  match d !! k with
  | Some v => OK v
  | None => Raise (KeyError k)
  end.

(** ** The plotting library, as far as the viewer uses it *)

Module jnp.
(** [jnp.arange(start, stop, step)] for a positive step: the values
    [start + i * step] below [stop].  The viewer only passes half
    integers, which floating point represents exactly. *)
Definition arange (start stop step : Q) : list Q :=
  let span := Qmult (Qminus stop start) (Qinv step) in
  let n := Z.to_nat (Qceiling span) in
  map (fun i : nat => Qred (Qplus start (Qmult (inject_Z (Z.of_nat i)) step)))
      (seq 0 n).
End jnp.

(** [plt.Rectangle(xy, width, height, color=...)]. *)
Record Rectangle : Type := mkRectangle {
  rect_x : Q;
  rect_y : Q;
  rect_width : Z;
  rect_height : Z;
  rect_color : string
}.

(** The board is a two-dimensional integer array. *)
Definition Board : Type := list (list Z).

(** [board[row, col]] with bounds checked; the loops of [draw_board] only
    use non-negative indices. *)
Definition board_getitem (board : Board) (row col : Z) : Result Z :=
  if (row <? 0) || (col <? 0) then Raise IndexError
  else match board !! Z.to_nat row with
       | Some cells =>
           match cells !! Z.to_nat col with
           | Some v => OK v
           | None => Raise IndexError
           end
       | None => Raise IndexError
       end.

(** One call on an axes object. *)
Inductive AxCall : Type :=
| AxClear
| AxSetXTicks (ticks : list Q)
| AxSetYTicks (ticks : list Q)
| AxTickParams (top bottom left right
                labelleft labelbottom labeltop labelright : bool)
| AxAddPatch (r : Rectangle)
| AxText (x y : Z) (s : string) (color ha va : string) (size : Z)
         (weight : string)
| AxImshow (board : Board)
| AxGrid (color linestyle : string) (linewidth : Z)
| AxAxis (arg : string).

(** An axes object: the calls made on it so far, oldest first. *)
Definition Axes : Type := list AxCall.

Definition AxM (A : Type) : Type := St Axes A.

Definition ax_call (c : AxCall) : AxM unit := fun ax => (ax ++ [c], OK tt).

(** ** The viewer *)

Definition COLORS : gmap Key string :=
  list_to_map
    [ (KInt 0, "#ccc0b3");
      (KInt 2, "#eee4da");
      (KInt 4, "#ede0c8");
      (KInt 8, "#f59563");
      (KInt 16, "#f59563");
      (KInt 32, "#f67c5f");
      (KInt 64, "#f65e3b");
      (KInt 128, "#edcf72");
      (KInt 256, "#edcc61");
      (KInt 512, "#edc651");
      (KInt 1024, "#eec744");
      (KInt 2048, "#ecc22e");
      (KInt 4096, "#b784ab");
      (KInt 8192, "#b784ab");
      (KInt 16384, "#aa60a6");
      (KStr "other", "#f8251d");
      (KStr "light_text", "#f9f6f2");
      (KStr "dark_text", "#766d64");
      (KStr "edge", "#bbada0");
      (KStr "bg", "#faf8ef") ].

(** The label colour key and font size chosen by the [if]/[elif] chain of
    [render_tile]. *)
Definition label_style (tile_value : Z) : Key * Z :=
  if (tile_value =? 2) || (tile_value =? 4) then (KStr "dark_text", 30)
  else if tile_value <? 1024 then (KStr "light_text", 30)
  else if (tile_value >=? 1024) && (tile_value <? 16384)
       then (KStr "light_text", 25)
  else (KStr "light_text", 20).

Definition render_tile (tile_value : Z) (row col : Z) : AxM unit :=
  let x := Qminus (inject_Z col) (1 # 2) in
  let y := Qminus (inject_Z row) (1 # 2) in
  let* rect :=
    (if tile_value <=? 16384
     then let* c := lift_result (dict_getitem COLORS (KInt tile_value)) in
          ret (mkRectangle x y 1 1 c)
     else let* c := lift_result (dict_getitem COLORS (KStr "other")) in
          ret (mkRectangle x y 1 1 c)) in
  ax_call (AxAddPatch rect) ;;
  let '(color_key, size) := label_style tile_value in
  let* color := lift_result (dict_getitem COLORS color_key) in
  if negb (tile_value =? 0)
  then ax_call (AxText col row (str tile_value) color "center" "center"
                       size "bold")
  else ret tt.

(** A game state, as far as the viewer reads it. *)
Record State : Type := mkState {
  board : Board;
  score : Q
}.

(** One call on a figure object (its canvas included). *)
Inductive FigCall : Type :=
| FigSuptitle (t : string) (size : Z)
| FigTightLayout
| FigShow
| FigCanvasDraw
| FigCanvasDrawIdle
| FigStartEventLoop (timeout : Q).

Record Figure : Type := mkFigure {
  fig_figsize : Q * Q;
  fig_facecolor : string;
  fig_axes : list Axes;
  fig_calls : list FigCall
}.

(** What the library was asked to write to a path. *)
Inductive File : Type :=
| ImageFile (snapshot : Figure) (bbox_inches : string) (pad_inches : Q)
| AnimationFile (fig : string) (frames : nat) (interval : Z) (blit : bool).

(** The process-wide state around the viewer: the figure registry of
    pyplot keyed by figure name, the current figure, the environment
    probes that the viewer and the animation driver read (interactive
    mode, Colab, whether the canvas of the backend can blit), the calls of
    [plt.show] and the file system. *)
Record World : Type := mkWorld {
  figs : gmap string Figure;
  current : option string;
  interactive : bool;
  colab : bool;
  supports_blit : bool;
  shown : list string;
  files : gmap string File
}.

Definition set_figs (f : gmap string Figure) (w : World) : World :=
  mkWorld f (current w) (interactive w) (colab w) (supports_blit w) (shown w)
          (files w).

Definition set_current (c : option string) (w : World) : World :=
  mkWorld (figs w) c (interactive w) (colab w) (supports_blit w) (shown w)
          (files w).

Definition set_shown (l : list string) (w : World) : World :=
  mkWorld (figs w) (current w) (interactive w) (colab w) (supports_blit w) l
          (files w).

Definition set_files (f : gmap string File) (w : World) : World :=
  mkWorld (figs w) (current w) (interactive w) (colab w) (supports_blit w)
          (shown w) f.

Definition M (A : Type) : Type := St World A.

(** Handles: a figure is known by its name, an axes by its figure and its
    position in [fig.get_axes()]. *)
Abbreviation FigHandle := string (only parsing).

Record AxHandle : Type := mkAx {
  ax_fig : string;
  ax_index : nat
}.

Definition set_fig_axes (axs : list Axes) (f : Figure) : Figure :=
  mkFigure (fig_figsize f) (fig_facecolor f) axs (fig_calls f).

Definition log_fig_call (c : FigCall) (f : Figure) : Figure :=
  mkFigure (fig_figsize f) (fig_facecolor f) (fig_axes f) (fig_calls f ++ [c]).

(** Run a method of the figure [fig]. *)
Definition on_fig (fig : FigHandle) (f : Figure -> Figure) : M unit :=
  fun w => match figs w !! fig with
           | Some fg => (set_figs (<[fig := f fg]> (figs w)) w, OK tt)
           | None => (w, Raise Dangling)
           end.

(** Run calls on the axes [ax]; the axes keeps what was drawn before an
    exception. *)
Definition on_ax {A} (ax : AxHandle) (m : AxM A) : M A :=
  fun w => match figs w !! ax_fig ax with
           | Some fg =>
               match fig_axes fg !! ax_index ax with
               | Some log =>
                   let '(log', r) := m log in
                   (set_figs (<[ax_fig ax :=
                                 set_fig_axes (<[ax_index ax := log']> (fig_axes fg)) fg]>
                                (figs w)) w, r)
               | None => (w, Raise Dangling)
               end
           | None => (w, Raise Dangling)
           end.

Module plt.
(** Defaults of [plt.figure] when the keyword is not passed. *)
Definition default_figsize : Q * Q := (32 # 5, 24 # 5).
Definition default_facecolor : string := "white".

Definition fignum_exists (name : string) : M bool :=
  fun w => (w, OK (bool_decide (is_Some (figs w !! name)))).

(** [plt.figure(name, figsize=..., facecolor=...)]: the figure registered
    under [name], created if there is none; it becomes the current
    figure. *)
Definition figure (name : string) (figsize : option (Q * Q))
    (facecolor : option string) : M FigHandle :=
  fun w => match figs w !! name with
           | Some _ => (set_current (Some name) w, OK name)
           | None =>
               let fg := mkFigure (default default_figsize figsize)
                                  (default default_facecolor facecolor)
                                  [] [] in
               (set_current (Some name) (set_figs (<[name := fg]> (figs w)) w),
                OK name)
           end.

(** Apply [f] to the current figure.  Without a current figure pyplot
    would open a fresh default one; the viewer calls these functions
    only right after [plt.figure(name)]. *)
Definition on_current (f : Figure -> Figure) : M unit :=
  fun w => match current w with
           | Some name =>
               match figs w !! name with
               | Some fg => (set_figs (<[name := f fg]> (figs w)) w, OK tt)
               | None => (w, OK tt)
               end
           | None => (w, OK tt)
           end.

Definition tight_layout : M unit := on_current (log_fig_call FigTightLayout).

(** [plt.axis(arg)] acts on the current axes of the current figure
    ([gca]): the axes added last, or a new one when the figure has
    none. *)
Definition gca_call (c : AxCall) (f : Figure) : Figure :=
  match reverse (fig_axes f) with
  | [] => set_fig_axes [[c]] f
  | cur :: older => set_fig_axes (reverse older ++ [cur ++ [c]]) f
  end.

Definition axis (arg : string) : M unit := on_current (gca_call (AxAxis arg)).

Definition isinteractive : M bool := fun w => (w, OK (interactive w)).

Definition show (arg : string) : M unit :=
  fun w => (set_shown (shown w ++ [arg]) w, OK tt).

(** [plt.close(name)]: the figure registered under [name], if any, leaves
    the registry; a name that is not registered is ignored; the name
    ["all"] closes every figure.  When the closed figure was the current
    one, pyplot falls back to the figure used before it, which this store
    does not track: it records no current figure then.  The viewer calls
    [plt.figure(name)] before every use of the current figure.  A handle
    kept across [close] would dangle in this store although the Python
    object lives on; no property below uses one. *)
Definition close (name : string) : M unit :=
  fun w => if bool_decide (name = "all")
           then (set_current None (set_figs ∅ w), OK tt)
           else (set_current (if bool_decide (current w = Some name)
                              then None else current w)
                   (set_figs (delete name (figs w)) w), OK tt).
End plt.

Module fig.
Definition suptitle (f : FigHandle) (t : string) (size : Z) : M unit :=
  on_fig f (log_fig_call (FigSuptitle t size)).

Definition show (f : FigHandle) : M unit := on_fig f (log_fig_call FigShow).

(** [fig.get_axes()]: the axes of the figure, in the order they were
    added. *)
Definition get_axes (f : FigHandle) : M (list AxHandle) :=
  fun w => match figs w !! f with
           | Some fg => (w, OK (map (mkAx f) (seq 0 (length (fig_axes fg)))))
           | None => (w, Raise Dangling)
           end.

(** [fig.add_subplot()]: a new, empty axes, added after the others. *)
Definition add_subplot (f : FigHandle) : M AxHandle :=
  fun w => match figs w !! f with
           | Some fg =>
               (set_figs (<[f := set_fig_axes (fig_axes fg ++ [[]]) fg]> (figs w)) w,
                OK (mkAx f (length (fig_axes fg))))
           | None => (w, Raise Dangling)
           end.

(** [fig.savefig(path, bbox_inches=..., pad_inches=...)]: the figure as
    it stands is written to [path]. *)
Definition savefig (f : FigHandle) (path : string) (bbox_inches : string)
    (pad_inches : Q) : M unit :=
  fun w => match figs w !! f with
           | Some fg =>
               (set_files (<[path := ImageFile fg bbox_inches pad_inches]> (files w)) w,
                OK tt)
           | None => (w, Raise Dangling)
           end.

Definition canvas_draw (f : FigHandle) : M unit :=
  on_fig f (log_fig_call FigCanvasDraw).

Definition canvas_draw_idle (f : FigHandle) : M unit :=
  on_fig f (log_fig_call FigCanvasDrawIdle).

Definition canvas_start_event_loop (f : FigHandle) (timeout : Q) : M unit :=
  on_fig f (log_fig_call (FigStartEventLoop timeout)).
End fig.

(** An animation object of [matplotlib.animation]: the figure, the frame
    callback, the number of frames, whether the driver blits, and the
    interval.  The callback of the viewer returns nothing. *)
Record FuncAnimation : Type := mkFuncAnimation {
  anim_fig : FigHandle;
  anim_func : Z -> M unit;
  anim_frames : nat;
  anim_blit : bool;
  anim_interval : Z
}.

Module animation.
(** The driver draws a frame by calling the callback; when it blits, it
    needs the artists that the callback returns, and raises
    [RuntimeError] after a callback that returned none. *)
Definition draw_frame (a : FuncAnimation) (i : Z) : M unit :=
  anim_func a i ;;
  if anim_blit a then raise RuntimeError else ret tt.

(** [anim.save(path)]: the driver draws the first frame once to set the
    figure up, when there is a frame, and then draws every frame in order,
    the writer grabbing the figure after each one; an exception of the
    callback ends the call.  The writer has nothing to write when no frame
    was grabbed and raises [IndexError]; otherwise the animation is
    written to [path]. *)
Definition save (a : FuncAnimation) (path : string) : M unit :=
  (match anim_frames a with
   | O => ret tt
   | S _ => draw_frame a 0
   end) ;;
  for_each (range 0 (Z.of_nat (anim_frames a))) (draw_frame a) ;;
  match anim_frames a with
  | O => raise IndexError
  | S _ =>
      fun w => (set_files (<[path := AnimationFile (anim_fig a) (anim_frames a)
                                                   (anim_interval a) (anim_blit a)]>
                             (files w)) w, OK tt)
  end.

(** [FuncAnimation(fig, func, frames=..., blit=..., interval=...)]: the
    driver keeps the arguments and calls [func] with the frame indices
    later; it blits only if the canvas of the backend can. *)
Definition FuncAnimation (f : FigHandle) (func : Z -> M unit) (frames : nat)
    (blit : bool) (interval : Z) : M FuncAnimation :=
  fun w => (w, OK (mkFuncAnimation f func frames (blit && supports_blit w)
                                   interval)).
End animation.

Module jumanji.
Definition is_colab : M bool := fun w => (w, OK (colab w)).
End jumanji.

Record Game2048Viewer : Type := mkViewer {
  _name : string;
  _board_size : Z;
  _animation : option FuncAnimation
}.

(** [Game2048Viewer(name, board_size)]. *)
Definition __init__ (name : string) (board_size : Z) : Game2048Viewer :=
  mkViewer name board_size None.

Definition draw_board (self : Game2048Viewer) (state : State) : AxM unit :=
  ax_call AxClear ;;
  ax_call (AxSetXTicks (jnp.arange (- (1 # 2)) (inject_Z (4 - 1)) (inject_Z 1))) ;;
  ax_call (AxSetYTicks (jnp.arange (- (1 # 2)) (inject_Z (4 - 1)) (inject_Z 1))) ;;
  ax_call (AxTickParams false false false false false false false false) ;;
  let board := board state in
  for_each (range 0 (_board_size self)) (fun row =>
    for_each (range 0 (_board_size self)) (fun col =>
      let* tile_value := lift_result (board_getitem board row col) in
      render_tile tile_value row col)) ;;
  ax_call (AxImshow board) ;;
  let* edge := lift_result (dict_getitem COLORS (KStr "edge")) in
  ax_call (AxGrid edge "-" 7).

Definition get_fig_ax (self : Game2048Viewer) : M (FigHandle * AxHandle) :=
  let* exists_ := plt.fignum_exists (_name self) in
  if exists_ : bool
  then
    let* f := plt.figure (_name self) None None in
    let* axs := fig.get_axes f in
    let* ax := lift_result (getitem axs 0) in
    ret (f, ax)
  else
    let* bg := lift_result (dict_getitem COLORS (KStr "bg")) in
    let* f := plt.figure (_name self) (Some (inject_Z 6, inject_Z 6)) (Some bg) in
    plt.tight_layout ;;
    plt.axis "off" ;;
    let* inter := plt.isinteractive in
    (if negb inter then fig.show f else ret tt) ;;
    let* ax := fig.add_subplot f in
    ret (f, ax).

Definition _display_human (self : Game2048Viewer) (f : FigHandle) : M unit :=
  let* inter := plt.isinteractive in
  if inter : bool
  then
    fig.canvas_draw f ;;
    let* c := jumanji.is_colab in
    if c : bool then plt.show (_name self) else ret tt
  else
    fig.canvas_draw_idle f ;;
    fig.canvas_start_event_loop f (2 # 1).

(** The title of both [render] and the frame callback. *)
Definition score_title (state : State) : string :=
  String.append "2048    Score: " (str (int (score state))).

Definition render (self : Game2048Viewer) (state : State) (save : bool)
    (path : string) : M unit :=
  let* fig_ax := get_fig_ax self in
  let '(f, ax) := fig_ax in
  fig.suptitle f (score_title state) 20 ;;
  on_ax ax (draw_board self state) ;;
  (if save then fig.savefig f path "tight" (1 # 2) else ret tt) ;;
  _display_human self f.

(** The closure [animate_state] of [animate]. *)
Definition animate_state (self : Game2048Viewer) (states : list State)
    (f : FigHandle) (ax : AxHandle) (state_index : Z) : M unit :=
  let* state := lift_result (getitem states state_index) in
  on_ax ax (draw_board self state) ;;
  fig.suptitle f (score_title state) 20.

(** A method that assigns to a field of [self] runs on the viewer and the
    world together: what it stored stays stored when it raises later. *)
Definition VM (A : Type) : Type := St (Game2048Viewer * World) A.

Definition get_self : VM Game2048Viewer := fun s => (s, OK s.1).

Definition in_world {A} (m : M A) : VM A :=
  fun s => let '(w', r) := m s.2 in ((s.1, w'), r).

(** [self._animation = a]. *)
Definition set_animation (a : FuncAnimation) : VM unit :=
  fun s => ((mkViewer (_name s.1) (_board_size s.1) (Some a), s.2), OK tt).

(** [animate] assigns [self._animation] before it saves, and returns the
    field. *)
Definition animate (states : list State) (interval : Z) (blit save : bool)
    (path : string) : VM (option FuncAnimation) :=
  let* self := get_self in
  let* fig_ax := in_world (get_fig_ax self) in
  let '(f, ax) := fig_ax in
  in_world (fig.suptitle f "2048    Score: 0" 20) ;;
  in_world plt.tight_layout ;;
  let* anim := in_world (animation.FuncAnimation
                           f (animate_state self states f ax)
                           (length states) blit interval) in
  set_animation anim ;;
  (if save then in_world (animation.save anim path) else ret tt) ;;
  let* self' := get_self in
  ret (_animation self').

Definition close (self : Game2048Viewer) : M unit := plt.close (_name self).

(** ** Vocabulary of the properties *)

(** The tile values that are keys of [COLORS]. *)
Definition palette_values : list Z :=
  [0; 2; 4; 8; 16; 32; 64; 128; 256; 512; 1024; 2048; 4096; 8192; 16384].

(** The patch of the cell [(row, col)]: the unit square around it. *)
Definition patch (row col : Z) (c : string) : AxCall :=
  AxAddPatch (mkRectangle (Qminus (inject_Z col) (1 # 2))
                          (Qminus (inject_Z row) (1 # 2)) 1 1 c).

(** The colour codes behind the two text roles. *)
Definition dark_text : string := "#766d64".
Definition light_text : string := "#f9f6f2".
Definition overflow : string := "#f8251d".

Inductive Tier : Type := DarkLarge | LightLarge | LightMedium | LightSmall.

Definition tier_color (t : Tier) : string :=
  match t with DarkLarge => dark_text | _ => light_text end.

Definition tier_size (t : Tier) : Z :=
  match t with
  | DarkLarge | LightLarge => 30
  | LightMedium => 25
  | LightSmall => 20
  end.

(** The ranges as the specification lists them: {2,4}; (0,1024) without 2
    and 4; [1024,16384); [16384,∞). *)
Definition listed_tier (t : Tier) (v : Z) : Prop :=
  match t with
  | DarkLarge => v = 2 \/ v = 4
  | LightLarge => 0 < v < 1024 /\ v <> 2 /\ v <> 4
  | LightMedium => 1024 <= v < 16384
  | LightSmall => 16384 <= v
  end.

(** The ranges of the [if]/[elif] chain on [0,∞): the second one starts at
    0. *)
Definition tier (t : Tier) (v : Z) : Prop :=
  match t with
  | DarkLarge => v = 2 \/ v = 4
  | LightLarge => 0 <= v < 1024 /\ v <> 2 /\ v <> 4
  | LightMedium => 1024 <= v < 16384
  | LightSmall => 16384 <= v
  end.

(** The tier whose branch of the chain is taken. *)
Definition tier_of (v : Z) : Tier :=
  if (v =? 2) || (v =? 4) then DarkLarge
  else if v <? 1024 then LightLarge
  else if v <? 16384 then LightMedium
  else LightSmall.

(** The tick positions [jnp.arange(-0.5, 4 - 1, 1)]. *)
Definition fixed_ticks : list Q := [-1 # 2; 1 # 2; 3 # 2; 5 # 2].

(** The boundaries of the cells of a board of side [n]: cell [k] spans
    from [k - 0.5] to [k + 0.5]. *)
Definition cell_boundaries (n : Z) : list Q :=
  (fun k => Qred (Qminus (inject_Z k) (1 # 2))) <$> range 0 (n + 1).

(** The cells of a board of side [n], row by row. *)
Definition cells (n : Z) : list (Z * Z) :=
  range 0 n ≫= (fun row => (fun col => (row, col)) <$> range 0 n).

(** The calls of [render_tile] for one cell of a board, on a fresh log. *)
Definition tile_trace (b : Board) (cell : Z * Z) : list AxCall :=
  match board_getitem b cell.1 cell.2 with
  | OK v => (render_tile v cell.1 cell.2 []).1
  | Raise _ => []
  end.

(** A tile value with a patch colour. *)
Definition renderable (v : Z) : bool :=
  bool_decide (v ∈ palette_values) || (16384 <? v).

(** The board covers the [n] by [n] cells with renderable values. *)
Definition well_formed (n : Z) (b : Board) : bool :=
  forallb (fun cell : Z * Z =>
             match board_getitem b cell.1 cell.2 with
             | OK v => renderable v
             | Raise _ => false
             end) (cells n).

(** The calls of one [draw_board] on a well-formed board. *)
Definition board_calls (n : Z) (b : Board) : list AxCall :=
  [AxClear; AxSetXTicks fixed_ticks; AxSetYTicks fixed_ticks;
   AxTickParams false false false false false false false false]
  ++ (cells n ≫= tile_trace b)
  ++ [AxImshow b; AxGrid "#bbada0" "-" 7].

(** A computation that only adds calls to the log. *)
Definition appends {A} (m : AxM A) : Prop :=
  forall ax, exists rest, (m ax).1 = ax ++ rest.

(** The figure that [get_fig_ax] creates: 6 by 6, background colour of
    the palette, one axes made and switched off by [plt.axis("off")], and
    the axes of [fig.add_subplot()]. *)
Definition created_figure (inter : bool) : Figure :=
  mkFigure (inject_Z 6, inject_Z 6) "#faf8ef" [[AxAxis "off"]; []]
           (FigTightLayout :: (if inter then [] else [FigShow])).

(** The title a figure shows: the last [suptitle] called on it. *)
Definition fig_title (fg : Figure) : option string :=
  last (omap (fun c => match c with FigSuptitle t _ => Some t | _ => None end)
             (fig_calls fg)).

(** A computation that neither reads nor writes the file system. *)
Definition files_blind {A} (m : M A) : Prop :=
  forall w fs, m (set_files fs w) = (set_files fs (m w).1, (m w).2).

(** A computation that registers no figure and drops none. *)
Definition keeps_registry {A} (m : M A) : Prop :=
  forall w, dom (figs (m w).1) = dom (figs w).

(** The world in which a process starts: no figure, no file; the canvas
    can blit, as those of the Agg backends do. *)
Definition empty_world (inter col : bool) : World :=
  mkWorld ∅ None inter col true [] ∅.

(** The state of the example of the specification. *)
Definition example_state : State :=
  mkState [[0; 2; 4; 0]; [0; 0; 0; 0]; [0; 0; 0; 0]; [0; 0; 0; 0]] (inject_Z 4).

(** The state after the move that merges the 2 and the 4 aside. *)
Definition second_state : State :=
  mkState [[2; 4; 0; 0]; [0; 0; 0; 2]; [0; 0; 0; 0]; [0; 0; 0; 0]] (inject_Z 12).

(** One cell of the board can be rendered: the index is in range and the
    value has a patch colour. *)
Definition cell_ok (b : Board) (cell : Z * Z) : bool :=
  match board_getitem b cell.1 cell.2 with
  | OK v => renderable v
  | Raise _ => false
  end.

(** The four calls that open [draw_board] and the two that close it. *)
Definition board_setup : list AxCall :=
  [AxClear; AxSetXTicks fixed_ticks; AxSetYTicks fixed_ticks;
   AxTickParams false false false false false false false false].

Definition board_finish (b : Board) : list AxCall :=
  [AxImshow b; AxGrid "#bbada0" "-" 7].

(** What an axes holds: the calls made on it since it was last cleared. *)
Definition shown_calls (log : list AxCall) : list AxCall :=
  fold_left (fun acc c => match c with AxClear => [] | _ => acc ++ [c] end)
            log [].

(** A computation on an axes that does not look at what the axes already
    holds: it adds the same calls and has the same outcome on every
    axes. *)
Definition framed {A} (m : AxM A) : Prop :=
  forall ax, m ax = (ax ++ (m []).1, (m []).2).

(** A computation that touches no figure but the one named [f]. *)
Definition only_fig {A} (f : string) (m : M A) : Prop :=
  forall w n, n <> f -> figs (m w).1 !! n = figs w !! n.

(** The calls of [_display_human] on the figure. *)
Definition flush_calls (inter : bool) : list FigCall :=
  if inter then [FigCanvasDraw]
  else [FigCanvasDrawIdle; FigStartEventLoop (2 # 1)].

(** A state whose board holds the value 1, which has no palette entry. *)
Definition broken_state : State :=
  mkState [[0; 2; 1; 0]; [0; 0; 0; 0]; [0; 0; 0; 0]; [0; 0; 0; 0]] (inject_Z 2).

(** A world in which someone else has opened a figure named ["2048"] and
    given it no axes. *)
Definition foreign_world : World :=
  mkWorld {["2048" := mkFigure plt.default_figsize plt.default_facecolor [] []]}
          (Some "2048") false false true [] ∅.

(** The figure after further calls on it. *)
Definition add_fig_calls (cs : list FigCall) (fg : Figure) : Figure :=
  mkFigure (fig_figsize fg) (fig_facecolor fg) (fig_axes fg) (fig_calls fg ++ cs).

(** The figure [fg] once [render] has titled it and drawn the state on
    its axes at position [i], which held [log]; the display is not flushed
    yet. *)
Definition drawn_figure (self : Game2048Viewer) (st : State) (i : nat)
    (log : Axes) (fg : Figure) : Figure :=
  add_fig_calls [FigSuptitle (score_title st) 20]
    (set_fig_axes
       (<[i := log ++ board_calls (_board_size self) (board st)]> (fig_axes fg))
       fg).

(** Counting the calls of one kind on an axes. *)
Definition is_patch (c : AxCall) : bool :=
  match c with AxAddPatch _ => true | _ => false end.

Definition is_text (c : AxCall) : bool :=
  match c with AxText _ _ _ _ _ _ _ _ => true | _ => false end.

Definition count_calls (p : AxCall -> bool) (log : list AxCall) : nat :=
  length (List.filter p log).

(** The cell of the board holds a value other than 0. *)
Definition occupied (b : Board) (cell : Z * Z) : bool :=
  match board_getitem b cell.1 cell.2 with
  | OK v => negb (v =? 0)
  | Raise _ => false
  end.

(** The figure [fg] after the frame callback has run for the states
    [sts], one after the other, on its axes at position [i]: the boards on
    the axes, the titles on the figure. *)
Definition frames_on (self : Game2048Viewer) (i : nat) (sts : list State)
    (fg : Figure) : Figure :=
  mkFigure (fig_figsize fg) (fig_facecolor fg)
    (alter (fun log =>
              log ++ (sts ≫= (fun st => board_calls (_board_size self) (board st))))
           i (fig_axes fg))
    (fig_calls fg ++ ((fun st => FigSuptitle (score_title st) 20) <$> sts)).

(** Every state of the sequence has a well-formed board. *)
Definition all_well_formed (self : Game2048Viewer) (states : list State) : bool :=
  forallb (fun st => well_formed (_board_size self) (board st)) states.

(** The board is a rectangular array with at least one cell, as
    [ax.imshow] needs it. *)
Definition rectangular (b : Board) : bool :=
  match b with
  | [] => false
  | row :: rows =>
      negb (Nat.eqb (length row) 0)
      && forallb (fun r => Nat.eqb (length r) (length row)) rows
  end.

(** The figure [fg] once [animate] has titled it and laid it out. *)
Definition titled_figure (fg : Figure) : Figure :=
  add_fig_calls [FigSuptitle "2048    Score: 0" 20; FigTightLayout] fg.

(** The states that [Animation.save] draws, in order: the first one once
    to set the figure up, then every one as a frame. *)
Definition drawn_frames (states : list State) : list State :=
  match states with
  | [] => []
  | s0 :: _ => s0 :: states
  end.
(** * Properties *)

(** ** Running the monad *)

Lemma bind_ok {S A B} (m : St S A) (k : A -> St S B) s s' a :
  m s = (s', OK a) -> bind m k s = k a s'.
Proof. unfold bind. by intros ->. Qed.

Lemma bind_raise {S A B} (m : St S A) (k : A -> St S B) s s' e :
  m s = (s', Raise e) -> bind m k s = (s', Raise e).
Proof. unfold bind. by intros ->. Qed.

(** ** [str] prints the decimal numeral *)

Lemma to_int_not_nil v :
  Z.to_int v <> Decimal.Pos Decimal.Nil /\ Z.to_int v <> Decimal.Neg Decimal.Nil.
Proof.
  destruct v as [|p|p]; simpl; split; try discriminate;
    intros [=H]; by apply DecimalPos.Unsigned.to_uint_nonnil in H.
Qed.

Lemma str_decimal v :
  option_map Z.of_int (NilZero.int_of_string (str v)) = Some v.
Proof.
  unfold str. destruct (to_int_not_nil v) as [Hp Hn].
  rewrite NilZero.isi by done. simpl. by rewrite DecimalZ.of_to.
Qed.

(** ** The palette *)

Lemma COLORS_int_key v c :
  COLORS !! KInt v = Some c -> v ∈ palette_values.
Proof.
  intros H. apply elem_of_list_to_map_2 in H.
  repeat (apply elem_of_cons in H; destruct H as [H|H];
          [inversion H; subst; compute_done|]).
  by apply elem_of_nil in H.
Qed.

Lemma palette_values_key v :
  v ∈ palette_values -> is_Some (COLORS !! KInt v).
Proof.
  intros H. unfold palette_values in H.
  repeat (apply elem_of_cons in H; destruct H as [->|H]; [by eexists|]).
  by apply elem_of_nil in H.
Qed.

Lemma COLORS_not_key v :
  v ∉ palette_values -> COLORS !! KInt v = None.
Proof.
  intros H. destruct (COLORS !! KInt v) as [c|] eqn:E; [|done].
  by apply COLORS_int_key in E.
Qed.

Lemma palette_values_bound v : v ∈ palette_values -> 0 <= v <= 16384.
Proof.
  intros H. unfold palette_values in H.
  repeat (apply elem_of_cons in H; destruct H as [->|H]; [lia|]).
  by apply elem_of_nil in H.
Qed.

(** ** [render_tile] *)

Lemma label_style_color v :
  exists c, COLORS !! (label_style v).1 = Some c /\
            (c = dark_text \/ c = light_text).
Proof.
  unfold label_style.
  destruct ((v =? 2) || (v =? 4)); [eexists; split; [reflexivity|by left]|].
  destruct (v <? 1024); [eexists; split; [reflexivity|by right]|].
  destruct ((v >=? 1024) && (v <? 16384));
    eexists; split; try reflexivity; by right.
Qed.

(** What [render_tile] does once the patch colour [c] is found. *)
Lemma render_tile_from_patch v row col c ax :
  (if v <=? 16384 then COLORS !! KInt v else COLORS !! KStr "other") = Some c ->
  exists color,
    COLORS !! (label_style v).1 = Some color /\
    render_tile v row col ax =
      (ax ++ patch row col c ::
             (if v =? 0 then []
              else [AxText col row (str v) color "center" "center"
                           (label_style v).2 "bold"]),
       OK tt).
Proof.
  intros Hc. destruct (label_style_color v) as (color & Hcolor & _).
  exists color. split; [done|].
  cbv [render_tile bind lift_result dict_getitem ret ax_call].
  revert Hcolor. destruct (label_style v) as [k sz]. cbn [fst snd]. intros Hcolor.
  destruct (v <=? 16384); rewrite Hc, Hcolor;
    destruct (v =? 0); cbn [negb]; by rewrite <- ?app_assoc.
Qed.

(** A value up to 16384 that is not a key of the palette raises, before
    anything is drawn. *)
Lemma render_tile_key_error v row col ax :
  v <= 16384 -> v ∉ palette_values ->
  render_tile v row col ax = (ax, Raise (KeyError (KInt v))).
Proof.
  intros Hle Hnot.
  cbv [render_tile bind lift_result dict_getitem].
  apply Z.leb_le in Hle. rewrite Hle.
  by rewrite (COLORS_not_key _ Hnot).
Qed.

(** A run of [render_tile] that returns found its patch colour. *)
Lemma render_tile_ok_inv v row col ax ax' :
  render_tile v row col ax = (ax', OK tt) ->
  exists c,
    (if v <=? 16384 then COLORS !! KInt v else COLORS !! KStr "other") = Some c.
Proof.
  cbv [render_tile bind lift_result dict_getitem ret ax_call].
  destruct (v <=? 16384).
  - destruct (COLORS !! KInt v) as [c|]; [by eexists|discriminate].
  - intros _. by eexists.
Qed.

(** *** The four label tiers *)

Lemma tier_of_spec v : 0 <= v -> tier (tier_of v) v.
Proof.
  intros Hv. unfold tier_of.
  destruct (Z.eqb_spec v 2); [by left|].
  destruct (Z.eqb_spec v 4); [by right|]. cbn [orb].
  destruct (Z.ltb_spec v 1024); [cbn; lia|].
  destruct (Z.ltb_spec v 16384); cbn; lia.
Qed.

Lemma tier_unique t t' v : tier t v -> tier t' v -> t = t'.
Proof. destruct t, t'; cbn; intros; try done; lia. Qed.

Lemma label_style_tier v :
  COLORS !! (label_style v).1 = Some (tier_color (tier_of v)) /\
  (label_style v).2 = tier_size (tier_of v).
Proof.
  unfold label_style, tier_of.
  destruct ((v =? 2) || (v =? 4)); [by split|].
  destruct (Z.ltb_spec v 1024); [by split|].
  destruct (Z.geb_spec v 1024); [|lia].
  destruct (v <? 16384); by split.
Qed.


(** *** Claims on [render_tile] *)

(** C4.  For every tile value [v] of the enumerated set 0, 2, 4, ..., 16384
    [render_tile] adds one unit-square patch at the cell, coloured with the
    palette entry keyed by [v]; for every [v] above 16384 the patch has the
    overflow colour, the entry ["other"].  In both cases the patch is the
    only patch of the call: what follows is the label, if any. *)
Theorem render_tile_patch_color (v row col : Z) (ax : Axes) :
  (v ∈ palette_values ->
   exists c color,
     COLORS !! KInt v = Some c /\
     render_tile v row col ax =
       (ax ++ patch row col c ::
              (if v =? 0 then []
               else [AxText col row (str v) color "center" "center"
                            (label_style v).2 "bold"]),
        OK tt)) /\
  (16384 < v ->
   exists color,
     COLORS !! KStr "other" = Some overflow /\
     render_tile v row col ax =
       (ax ++ [patch row col overflow;
               AxText col row (str v) color "center" "center"
                      (label_style v).2 "bold"],
        OK tt)).
Proof.
  split.
  - intros Hv. destruct (palette_values_key v Hv) as [c Hc].
    pose proof (palette_values_bound v Hv) as Hb.
    destruct (render_tile_from_patch v row col c ax) as (color & _ & Hrun).
    { destruct (Z.leb_spec v 16384); [done|lia]. }
    by exists c, color.
  - intros Hv.
    destruct (render_tile_from_patch v row col overflow ax) as (color & _ & Hrun).
    { destruct (Z.leb_spec v 16384); [lia|done]. }
    exists color. split; [done|].
    rewrite Hrun. destruct (Z.eqb_spec v 0); [lia|done].
Qed.

Lemma render_tile_patch_color_witness :
  (exists c color,
     COLORS !! KInt 2 = Some c /\
     render_tile 2 0 1 [] =
       ([] ++ patch 0 1 c ::
              (if 2 =? 0 then []
               else [AxText 1 0 (str 2) color "center" "center"
                            (label_style 2).2 "bold"]),
        OK tt)) /\
  (exists color,
     COLORS !! KStr "other" = Some overflow /\
     render_tile 32768 3 2 [] =
       ([] ++ [patch 3 2 overflow;
               AxText 2 3 (str 32768) color "center" "center"
                      (label_style 32768).2 "bold"],
        OK tt)).
Proof.
  split.
  - apply (proj1 (render_tile_patch_color 2 0 1 [])).
    apply list_elem_of_further, list_elem_of_here.
  - apply (proj2 (render_tile_patch_color 32768 3 2 [])). lia.
Defined.

(** C2, counterexample.  The tile value 1 is a power of two, is not a key
    of the palette, and [render_tile] raises [KeyError] on it instead of
    drawing with the overflow colour. *)
Lemma render_tile_unlisted_value_raises :
  1 = 2 ^ 0 /\ (1 ∉ palette_values) /\
  render_tile 1 0 0 [] = ([], Raise (KeyError (KInt 1))).
Proof.
  split; [done|]. split; [|by vm_compute].
  intros H. apply palette_values_key in H. by destruct H as [c [=]].
Qed.

(** C2, amended.  Every tile value above 16384 is outside the palette, and
    [render_tile] does not raise on it: it draws the patch with the
    overflow colour (and the label in light text at the smallest size).
    This covers every power of two above 16384. *)
Theorem render_tile_overflow_no_error (v row col : Z) (ax : Axes) :
  16384 < v ->
  (v ∉ palette_values) /\
  render_tile v row col ax =
    (ax ++ [patch row col overflow;
            AxText col row (str v) light_text "center" "center" 20 "bold"],
     OK tt).
Proof.
  intros Hv. split.
  - intros H. apply palette_values_bound in H. lia.
  - destruct (render_tile_from_patch v row col overflow ax) as (color & Hc & Hrun).
    { destruct (Z.leb_spec v 16384); [lia|done]. }
    destruct (label_style_tier v) as [Hcol Hsz].
    rewrite Hrun, Hsz. rewrite Hcol in Hc. injection Hc as <-.
    assert (tier_of v = LightSmall) as ->.
    { unfold tier_of. destruct (Z.eqb_spec v 2); [lia|].
      destruct (Z.eqb_spec v 4); [lia|]. cbn [orb].
      destruct (Z.ltb_spec v 1024); [lia|].
      destruct (Z.ltb_spec v 16384); [lia|done]. }
    destruct (Z.eqb_spec v 0); [lia|done].
Qed.

Lemma render_tile_overflow_no_error_witness :
  (2 ^ 15 ∉ palette_values) /\
  render_tile (2 ^ 15) 1 2 [] =
    ([] ++ [patch 1 2 overflow;
            AxText 2 1 (str (2 ^ 15)) light_text "center" "center" 20 "bold"],
     OK tt).
Proof. apply (render_tile_overflow_no_error (2 ^ 15) 1 2 []). lia. Defined.

(** Every power of two above 16384 is such a value. *)
Lemma power_of_two_above_palette (k : Z) : 14 < k -> 16384 < 2 ^ k.
Proof.
  intros Hk. change 16384 with (2 ^ 14). apply Z.pow_lt_mono_r; lia.
Qed.

(** C3, counterexample.  The value 0 lies in none of the four listed
    ranges, although it belongs to the domain [0,∞) and the chain of
    [render_tile] selects light text at the largest size for it: the
    ranges as listed are not exhaustive. *)
Lemma listed_tiers_miss_zero :
  0 <= 0 /\
  (forall t, ~ listed_tier t 0) /\
  COLORS !! (label_style 0).1 = Some light_text /\ (label_style 0).2 = 30.
Proof.
  split; [lia|]. split; [|by split].
  intros [] H; cbn in H; lia.
Qed.

(** C3, amended.  On the domain [0,∞) the tiers {2,4}; [0,1024) without 2
    and 4; [1024,16384); [16384,∞) are mutually exclusive and exhaustive:
    every value lies in exactly one of them, and the colour and size that
    [render_tile] selects are the ones of that tier (dark/30, light/30,
    light/25, light/20).  Whenever [render_tile] returns for a value other
    than 0, the label it drew last carries that colour and size. *)
Theorem label_tiers_partition (v : Z) :
  0 <= v ->
  exists t,
    tier t v /\
    (forall t', tier t' v -> t' = t) /\
    COLORS !! (label_style v).1 = Some (tier_color t) /\
    (label_style v).2 = tier_size t /\
    (forall row col ax ax',
        v <> 0 ->
        render_tile v row col ax = (ax', OK tt) ->
        last ax' = Some (AxText col row (str v) (tier_color t)
                                "center" "center" (tier_size t) "bold")).
Proof.
  intros Hv. exists (tier_of v).
  pose proof (tier_of_spec v Hv) as Ht.
  destruct (label_style_tier v) as [Hcol Hsz].
  repeat split; try done.
  - intros t' Ht'. by apply (tier_unique t' (tier_of v) v).
  - intros row col ax ax' Hnz Hrun.
    destruct (render_tile_ok_inv _ _ _ _ _ Hrun) as [c Hc].
    destruct (render_tile_from_patch v row col c ax Hc) as (color & Hcolor & Hrun').
    rewrite Hrun' in Hrun. injection Hrun as <-.
    rewrite Hcol in Hcolor. injection Hcolor as <-.
    destruct (Z.eqb_spec v 0); [lia|].
    rewrite Hsz. by rewrite last_app.
Qed.

Lemma label_tiers_partition_witness :
  exists t,
    tier t 2048 /\
    (forall t', tier t' 2048 -> t' = t) /\
    COLORS !! (label_style 2048).1 = Some (tier_color t) /\
    (label_style 2048).2 = tier_size t /\
    (forall row col ax ax',
        2048 <> 0 ->
        render_tile 2048 row col ax = (ax', OK tt) ->
        last ax' = Some (AxText col row (str 2048) (tier_color t)
                                "center" "center" (tier_size t) "bold")).
Proof. apply (label_tiers_partition 2048). lia. Defined.

(** C5, counterexample.  The tile value 1 is not 0, yet [render_tile]
    draws no label for it: the call raises [KeyError] at the patch colour
    and leaves the axes as they were. *)
Lemma render_tile_nonzero_without_label :
  1 <> 0 /\ render_tile 1 2 3 [] = ([], Raise (KeyError (KInt 1))).
Proof. split; [lia|]. by vm_compute. Qed.

(** C5, amended.  For the tile value 0 [render_tile] draws the patch and no
    text label.  For every other value whose patch colour exists (a key of
    the palette, or a value above 16384) it draws, after the patch, exactly
    one text label, at [(col, row)], centred horizontally and vertically,
    whose content [str v] is the decimal numeral of [v]. *)
Theorem render_tile_label (v row col : Z) (ax : Axes) :
  v ∈ palette_values \/ 16384 < v ->
  exists c color size,
    render_tile v row col ax =
      (ax ++ patch row col c ::
             (if v =? 0 then []
              else [AxText col row (str v) color "center" "center" size "bold"]),
       OK tt) /\
    option_map Z.of_int (NilZero.int_of_string (str v)) = Some v.
Proof.
  intros Hv.
  assert (exists c, (if v <=? 16384 then COLORS !! KInt v
                     else COLORS !! KStr "other") = Some c) as [c Hc].
  { destruct Hv as [Hv|Hv].
    - destruct (palette_values_key v Hv) as [c Hc].
      pose proof (palette_values_bound v Hv).
      exists c. destruct (Z.leb_spec v 16384); [done|lia].
    - exists overflow. destruct (Z.leb_spec v 16384); [lia|done]. }
  destruct (render_tile_from_patch v row col c ax Hc) as (color & _ & Hrun).
  exists c, color, (label_style v).2. split; [done|apply str_decimal].
Qed.

Lemma render_tile_label_witness :
  (exists c color size,
     render_tile 0 0 0 [] =
       ([] ++ patch 0 0 c ::
              (if 0 =? 0 then []
               else [AxText 0 0 (str 0) color "center" "center" size "bold"]),
        OK tt) /\
     option_map Z.of_int (NilZero.int_of_string (str 0)) = Some 0) /\
  (exists c color size,
     render_tile 2 0 1 [] =
       ([] ++ patch 0 1 c ::
              (if 2 =? 0 then []
               else [AxText 1 0 (str 2) color "center" "center" size "bold"]),
        OK tt) /\
     option_map Z.of_int (NilZero.int_of_string (str 2)) = Some 2).
Proof.
  split.
  - apply (render_tile_label 0 0 0 []). left. apply list_elem_of_here.
  - apply (render_tile_label 2 0 1 []). left.
    apply list_elem_of_further, list_elem_of_here.
Defined.

(** ** [draw_board] *)

(** *** The loops visit every cell once *)

Lemma elem_of_range lo hi k : k ∈ range lo hi <-> lo <= k < hi.
Proof. unfold range. rewrite elem_of_seqZ. lia. Qed.

Lemma elem_of_cells n row col :
  (row, col) ∈ cells n <-> 0 <= row < n /\ 0 <= col < n.
Proof.
  unfold cells. rewrite list_elem_of_bind. split.
  - intros (r & Hin & Hr). apply list_elem_of_fmap in Hin as (c & [= -> ->] & Hc).
    by rewrite <- !elem_of_range.
  - intros [Hr Hc]. exists row. split; [|by apply elem_of_range].
    apply list_elem_of_fmap. exists col. split; [done|by apply elem_of_range].
Qed.

Lemma NoDup_cells n : NoDup (cells n).
Proof.
  unfold cells. apply NoDup_bind.
  - intros r1 r2 [r c] _ _ H1 H2.
    apply list_elem_of_fmap in H1 as (c1 & [= -> ->] & _).
    apply list_elem_of_fmap in H2 as (c2 & [= -> ->] & _). done.
  - intros r _. apply NoDup_fmap_2; [|apply NoDup_seqZ].
    by intros c1 c2 [=].
  - apply NoDup_seqZ.
Qed.

Lemma product_bind {B} (f : Z * Z -> list B) (rows cols : list Z) :
  (rows ≫= (fun row => (fun col => (row, col)) <$> cols)) ≫= f =
  rows ≫= (fun row => cols ≫= (fun col => f (row, col))).
Proof.
  induction rows as [|r rows IH]; [done|].
  rewrite !bind_cons, bind_app, IH. f_equal. clear IH.
  induction cols as [|c cols IHc]; [done|].
  rewrite fmap_cons, !bind_cons. by f_equal.
Qed.

Lemma cells_bind {B} (f : Z * Z -> list B) n :
  cells n ≫= f =
  range 0 n ≫= (fun row => range 0 n ≫= (fun col => f (row, col))).
Proof. apply product_bind. Qed.

(** *** Loops and logs *)

Lemma for_each_trace {A} (xs : list A) (body : A -> AxM unit)
    (tr : A -> list AxCall) :
  (forall x, x ∈ xs -> forall ax, body x ax = (ax ++ tr x, OK tt)) ->
  forall ax, for_each xs body ax = (ax ++ (xs ≫= tr), OK tt).
Proof.
  induction xs as [|x xs IH]; intros Hbody ax.
  - cbn. unfold ret. by rewrite app_nil_r.
  - cbn [for_each]. rewrite (bind_ok _ _ ax (ax ++ tr x) tt).
    + rewrite IH; [|intros y Hy; apply Hbody; by right].
      by rewrite bind_cons, app_assoc.
    + apply Hbody. by left.
Qed.

Lemma render_tile_frame v row col ax :
  render_tile v row col ax =
    (ax ++ (render_tile v row col []).1, (render_tile v row col []).2).
Proof.
  destruct (if v <=? 16384 then COLORS !! KInt v else COLORS !! KStr "other")
    as [c|] eqn:Hc.
  - destruct (render_tile_from_patch v row col c ax Hc) as (color & Hcol & ->).
    destruct (render_tile_from_patch v row col c [] Hc) as (color' & Hcol' & ->).
    rewrite Hcol in Hcol'. by injection Hcol' as <-.
  - assert (forall a, render_tile v row col a = (a, Raise (KeyError (KInt v)))) as H.
    { intros a. cbv [render_tile bind lift_result dict_getitem].
      destruct (v <=? 16384); [by rewrite Hc|discriminate]. }
    rewrite !H. cbn. by rewrite app_nil_r.
Qed.

Lemma renderable_ok v row col :
  renderable v = true -> (render_tile v row col []).2 = OK tt.
Proof.
  unfold renderable. intros H.
  assert (exists c, (if v <=? 16384 then COLORS !! KInt v
                     else COLORS !! KStr "other") = Some c) as [c Hc].
  { apply orb_true_iff in H as [H|H].
    - apply bool_decide_eq_true in H.
      destruct (palette_values_key v H) as [c Hc].
      pose proof (palette_values_bound v H).
      exists c. destruct (Z.leb_spec v 16384); [done|lia].
    - apply Z.ltb_lt in H. exists overflow.
      destruct (Z.leb_spec v 16384); [lia|done]. }
  by destruct (render_tile_from_patch v row col c [] Hc) as (color & _ & ->).
Qed.

Lemma appends_ret {A} (a : A) : appends (ret a).
Proof. intros ax. exists []. cbn. by rewrite app_nil_r. Qed.

Lemma appends_lift_result {A} (r : Result A) : appends (lift_result r).
Proof. intros ax. exists []. cbn. by rewrite app_nil_r. Qed.

Lemma appends_ax_call c : appends (ax_call c).
Proof. intros ax. by exists [c]. Qed.

Lemma appends_bind {A B} (m : AxM A) (k : A -> AxM B) :
  appends m -> (forall a, appends (k a)) -> appends (bind m k).
Proof.
  intros Hm Hk ax. unfold bind.
  destruct (Hm ax) as [rest1 H1]. destruct (m ax) as [s [a|e]]; cbn in H1; subst s.
  - destruct (Hk a (ax ++ rest1)) as [rest2 H2].
    exists (rest1 ++ rest2). by rewrite H2, app_assoc.
  - by exists rest1.
Qed.

Lemma appends_for_each {A} (xs : list A) (body : A -> AxM unit) :
  (forall x, appends (body x)) -> appends (for_each xs body).
Proof.
  intros Hbody. induction xs as [|x xs IH]; cbn [for_each].
  - apply appends_ret.
  - apply appends_bind; [apply Hbody|by intros _].
Qed.

Lemma appends_render_tile v row col : appends (render_tile v row col).
Proof. intros ax. eexists. by rewrite render_tile_frame. Qed.

Create HintDb appends.

#[local] Hint Resolve appends_ret appends_lift_result appends_ax_call
  appends_render_tile : appends.
#[local] Hint Extern 2 (appends (bind _ _)) =>
  apply appends_bind; [|intros ?] : appends.
#[local] Hint Extern 2 (appends (for_each _ _)) =>
  apply appends_for_each; intros ? : appends.

Lemma arange_fixed_ticks :
  jnp.arange (- (1 # 2)) (inject_Z (4 - 1)) (inject_Z 1) = fixed_ticks.
Proof. by vm_compute. Qed.

(** The first four calls of [draw_board], whatever the board and whatever
    happens in the loops. *)
Lemma draw_board_prefix self st ax :
  exists rest,
    (draw_board self st ax).1 =
      ax ++ AxClear :: AxSetXTicks fixed_ticks :: AxSetYTicks fixed_ticks ::
            AxTickParams false false false false false false false false ::
            rest.
Proof.
  unfold draw_board. rewrite arange_fixed_ticks.
  do 4 (erewrite bind_ok; [|reflexivity]).
  match goal with |- context [bind ?m ?k _] =>
    assert (appends (bind m k)) as Happ by auto 10 with appends
  end.
  destruct (Happ ((((ax ++ [AxClear]) ++ [AxSetXTicks fixed_ticks])
                     ++ [AxSetYTicks fixed_ticks])
                    ++ [AxTickParams false false false false
                                     false false false false])) as [rest ->].
  exists rest. by rewrite <- !app_assoc.
Qed.

(** On a well-formed board every cell is rendered, in row-major order,
    between the four set-up calls and the two closing ones. *)
Lemma draw_board_ok self st ax :
  well_formed (_board_size self) (board st) = true ->
  draw_board self st ax =
    (ax ++ board_calls (_board_size self) (board st), OK tt).
Proof.
  intros Hwf. unfold well_formed in Hwf. rewrite forallb_forall in Hwf.
  assert (forall row col, row ∈ range 0 (_board_size self) ->
            col ∈ range 0 (_board_size self) ->
            forall a,
              (let* tile_value := lift_result (board_getitem (board st) row col) in
               render_tile tile_value row col) a =
                (a ++ tile_trace (board st) (row, col), OK tt)) as Hcell.
  { intros row col Hr Hc a.
    assert ((row, col) ∈ cells (_board_size self)) as Hin.
    { apply elem_of_cells. by rewrite <- !elem_of_range. }
    apply list_elem_of_In, Hwf in Hin. unfold tile_trace. cbn [fst snd] in *.
    destruct (board_getitem (board st) row col) as [v|e]; [|done].
    cbv [bind lift_result]. rewrite render_tile_frame.
    by rewrite (renderable_ok v row col Hin). }
  unfold draw_board, board_calls. rewrite arange_fixed_ticks.
  do 4 (erewrite bind_ok; [|reflexivity]).
  erewrite bind_ok.
  2:{ apply (for_each_trace _ _
               (fun row => range 0 (_board_size self) ≫=
                             (fun col => tile_trace (board st) (row, col)))).
      intros row Hr a. apply for_each_trace. intros col Hc. by apply Hcell. }
  erewrite bind_ok; [|reflexivity].
  rewrite cells_bind. cbv [bind lift_result ax_call].
  change (dict_getitem COLORS (KStr "edge")) with (OK (A:=string) "#bbada0").
  cbn. f_equal. by rewrite <- !app_assoc.
Qed.

(** For a board of side 4 the ticks are cell boundaries: all of them but
    the outer edge at 3.5. *)
Lemma fixed_ticks_board_4 : cell_boundaries 4 = fixed_ticks ++ [7 # 2].
Proof. by vm_compute. Qed.

(** C1, at the failing input [board_size = 5].  [draw_board] starts by
    clearing the axes, setting the ticks and hiding the tick labels, but the
    tick positions are the constant list -0.5, 0.5, 1.5, 2.5 of
    [jnp.arange(-0.5, 4 - 1, 1)] for every viewer: they do not follow the
    configured [board_size].  For a viewer of side 5 the boundary 3.5
    between the cells 3 and 4, which the loops do render, gets no tick. *)
Theorem draw_board_ticks_ignore_board_size :
  (forall (self : Game2048Viewer) (st : State) (ax : Axes),
      exists rest,
        (draw_board self st ax).1 =
          ax ++ AxClear :: AxSetXTicks fixed_ticks :: AxSetYTicks fixed_ticks ::
                AxTickParams false false false false false false false false ::
                rest) /\
  (3, 4) ∈ cells (_board_size (__init__ "2048" 5)) /\
  (7 # 2) ∈ cell_boundaries (_board_size (__init__ "2048" 5)) /\
  (7 # 2) ∉ fixed_ticks.
Proof.
  split; [apply draw_board_prefix|].
  split; [apply elem_of_cells; cbn; lia|].
  split.
  - vm_compute. do 4 apply list_elem_of_further. apply list_elem_of_here.
  - intros H. unfold fixed_ticks in H.
    repeat (apply elem_of_cons in H as [H|H]; [discriminate|]).
    by apply elem_of_nil in H.
Qed.

(** ** The figure registry: [get_fig_ax] *)

Lemma on_fig_ok f g w fg :
  figs w !! f = Some fg ->
  on_fig f g w = (set_figs (<[f := g fg]> (figs w)) w, OK tt).
Proof. unfold on_fig. by intros ->. Qed.

Lemma on_ax_ok {A} (ax : AxHandle) (m : AxM A) w fg log :
  figs w !! ax_fig ax = Some fg ->
  fig_axes fg !! ax_index ax = Some log ->
  on_ax ax m w =
    (set_figs (<[ax_fig ax :=
                  set_fig_axes (<[ax_index ax := (m log).1]> (fig_axes fg)) fg]>
                 (figs w)) w,
     (m log).2).
Proof. unfold on_ax. intros -> ->. by destruct (m log). Qed.

(** No figure under the name: one is created and its second axes is
    returned. *)
Lemma get_fig_ax_fresh self w :
  figs w !! _name self = None ->
  get_fig_ax self w =
    (set_current (Some (_name self))
       (set_figs (<[_name self := created_figure (interactive w)]> (figs w)) w),
     OK (_name self, mkAx (_name self) 1)).
Proof.
  intros Hnone.
  unfold get_fig_ax, plt.fignum_exists, plt.figure, plt.tight_layout, plt.axis,
    plt.on_current, plt.isinteractive, fig.show, fig.add_subplot, on_fig.
  cbv [bind ret lift_result]. rewrite Hnone.
  rewrite bool_decide_eq_false_2 by (by intros [? [=]]).
  change (dict_getitem COLORS (KStr "bg")) with (OK (A:=string) "#faf8ef").
  cbn [figs current interactive set_current set_figs].
  rewrite Hnone. cbn [figs current interactive set_current set_figs].
  rewrite !lookup_insert_eq. cbn [figs current interactive set_current set_figs].
  rewrite !lookup_insert_eq. cbn [figs current interactive set_current set_figs].
  destruct (interactive w) eqn:Hi; cbn [negb figs current interactive set_current set_figs];
    rewrite ?lookup_insert_eq;
    cbn [figs current interactive set_current set_figs];
    rewrite ?lookup_insert_eq, !insert_insert_eq;
    unfold set_figs, set_current, created_figure; cbn; by rewrite ?Hi.
Qed.

Lemma getitem_first {A} (x : A) (xs : list A) : getitem (x :: xs) 0 = OK x.
Proof.
  unfold getitem. cbn [length]. change (0 <? 0) with false. cbn iota.
  change (0 <=? 0) with true.
  destruct (Z.ltb_spec 0 (Z.of_nat (S (length xs)))); [done|lia].
Qed.

Lemma figs_set_current c w : figs (set_current c w) = figs w.
Proof. done. Qed.

(** A figure under the name, with axes: it is returned with its first
    axes, and only becomes the current figure. *)
Lemma get_fig_ax_existing self w fg :
  figs w !! _name self = Some fg -> fig_axes fg <> [] ->
  get_fig_ax self w =
    (set_current (Some (_name self)) w, OK (_name self, mkAx (_name self) 0)).
Proof.
  intros Hfg Hax.
  unfold get_fig_ax, plt.fignum_exists, plt.figure, fig.get_axes.
  cbv [bind ret lift_result]. rewrite Hfg.
  rewrite bool_decide_eq_true_2 by (by eexists).
  cbv beta iota.
  rewrite ?figs_set_current.
  rewrite Hfg. cbv beta iota.
  rewrite ?figs_set_current.
  rewrite Hfg. cbv beta iota.
  destruct (fig_axes fg) as [|a axs]; [done|].
  change (seq 0 (length (a :: axs))) with (0%nat :: seq 1 (length axs)).
  cbn [map]. by rewrite getitem_first.
Qed.

(** A figure under the name that has no axes (registered by someone
    else): [fig.get_axes()[0]] raises. *)
Lemma get_fig_ax_no_axes self w fg :
  figs w !! _name self = Some fg -> fig_axes fg = [] ->
  get_fig_ax self w = (set_current (Some (_name self)) w, Raise IndexError).
Proof.
  intros Hfg Hax.
  unfold get_fig_ax, plt.fignum_exists, plt.figure, fig.get_axes.
  cbv [bind ret lift_result]. rewrite Hfg.
  rewrite bool_decide_eq_true_2 by (by eexists).
  cbv beta iota.
  rewrite ?figs_set_current.
  rewrite Hfg. cbv beta iota.
  rewrite ?figs_set_current.
  rewrite Hfg, Hax. done.
Qed.

(** The handles that [get_fig_ax] returns point into the store: the
    figure is registered under the viewer's name and has the axes. *)
Lemma get_fig_ax_handles self w w1 f ax :
  get_fig_ax self w = (w1, OK (f, ax)) ->
  f = _name self /\ ax_fig ax = f /\ current w1 = Some f /\
  files w1 = files w /\ interactive w1 = interactive w /\
  colab w1 = colab w /\ shown w1 = shown w /\
  exists fg log,
    figs w1 !! f = Some fg /\ fig_axes fg !! ax_index ax = Some log /\
    fig_axes fg <> [] /\
    figs w1 = <[f := fg]> (figs w) /\
    (figs w !! f = None -> fg = created_figure (interactive w)) /\
    (forall fg0, figs w !! f = Some fg0 -> fg = fg0 /\ ax_index ax = 0%nat).
Proof.
  destruct (figs w !! _name self) as [fg|] eqn:Hfg.
  - destruct (fig_axes fg) as [|a axs] eqn:Hax.
    + by rewrite (get_fig_ax_no_axes self w fg).
    + rewrite (get_fig_ax_existing self w fg) by (done || by rewrite Hax).
      intros [= <- <- <-]. cbn. split_and!; try done.
      exists fg, a. rewrite Hax, Hfg. split_and!; try done.
      * by rewrite insert_id.
      * by intros fg0 [= ->].
  - rewrite (get_fig_ax_fresh self w Hfg). intros [= <- <- <-].
    cbn. split_and!; try done.
    exists (created_figure (interactive w)), [].
    rewrite lookup_insert_eq, Hfg. split_and!; done.
Qed.

(** ** What a computation leaves alone *)

Create HintDb blind.
Create HintDb registry.

Lemma files_blind_files {A} (m : M A) w :
  files_blind m -> files (m w).1 = files w.
Proof.
  intros Hm. specialize (Hm w (files w)).
  assert (set_files (files w) w = w) as Hw by by destruct w.
  rewrite Hw in Hm. destruct (m w) as [w' r]. cbn in *.
  injection Hm as Hm. by rewrite Hm.
Qed.

Lemma files_blind_bind {A B} (m : M A) (k : A -> M B) :
  files_blind m -> (forall a, files_blind (k a)) -> files_blind (bind m k).
Proof.
  intros Hm Hk w fs. unfold bind. rewrite Hm.
  destruct (m w) as [w1 [a|e]]; cbn [fst snd]; [apply Hk|done].
Qed.

Lemma files_blind_ret {A} (a : A) : files_blind (ret a).
Proof. by intros w fs. Qed.

Lemma files_blind_lift_result {A} (r : Result A) : files_blind (lift_result r).
Proof. by intros w fs. Qed.

Lemma files_blind_on_fig f g : files_blind (on_fig f g).
Proof.
  intros w fs. unfold on_fig. cbn [figs set_files].
  by destruct (figs w !! f).
Qed.

Lemma files_blind_on_ax {A} ax (m : AxM A) : files_blind (on_ax ax m).
Proof.
  intros w fs. unfold on_ax. cbn [figs set_files].
  destruct (figs w !! ax_fig ax) as [fg|]; [|done].
  destruct (fig_axes fg !! ax_index ax) as [log|]; [|done].
  by destruct (m log).
Qed.

Lemma files_blind_on_current g : files_blind (plt.on_current g).
Proof.
  intros w fs. unfold plt.on_current. cbn [figs current set_files].
  destruct (current w) as [name|]; [|done].
  by destruct (figs w !! name).
Qed.

Lemma files_blind_fignum_exists name : files_blind (plt.fignum_exists name).
Proof. by intros w fs. Qed.

Lemma files_blind_figure name sz fc : files_blind (plt.figure name sz fc).
Proof.
  intros w fs. unfold plt.figure. cbn [figs set_files].
  by destruct (figs w !! name).
Qed.

Lemma files_blind_isinteractive : files_blind plt.isinteractive.
Proof. by intros w fs. Qed.

Lemma files_blind_is_colab : files_blind jumanji.is_colab.
Proof. by intros w fs. Qed.

Lemma files_blind_show arg : files_blind (plt.show arg).
Proof. by intros w fs. Qed.

Lemma files_blind_get_axes f : files_blind (fig.get_axes f).
Proof.
  intros w fs. unfold fig.get_axes. cbn [figs set_files].
  by destruct (figs w !! f).
Qed.

Lemma files_blind_add_subplot f : files_blind (fig.add_subplot f).
Proof.
  intros w fs. unfold fig.add_subplot. cbn [figs set_files].
  by destruct (figs w !! f).
Qed.

#[local] Hint Resolve files_blind_ret files_blind_lift_result files_blind_on_fig
  files_blind_on_ax files_blind_on_current files_blind_fignum_exists
  files_blind_figure files_blind_isinteractive files_blind_is_colab
  files_blind_show files_blind_get_axes files_blind_add_subplot : blind.
#[local] Hint Extern 2 (files_blind (bind _ _)) =>
  apply files_blind_bind; [|intros ?] : blind.
#[local] Hint Extern 2 (files_blind (if ?b then _ else _)) => destruct b : blind.
#[local] Hint Extern 2 (files_blind (let '(_, _) := ?p in _)) => destruct p : blind.
#[local] Hint Extern 1 (files_blind plt.tight_layout) =>
  apply files_blind_on_current : blind.
#[local] Hint Extern 1 (files_blind (plt.axis _)) =>
  apply files_blind_on_current : blind.
#[local] Hint Extern 1 (files_blind (fig.suptitle _ _ _)) =>
  apply files_blind_on_fig : blind.
#[local] Hint Extern 1 (files_blind (fig.show _)) =>
  apply files_blind_on_fig : blind.
#[local] Hint Extern 1 (files_blind (fig.canvas_draw _)) =>
  apply files_blind_on_fig : blind.
#[local] Hint Extern 1 (files_blind (fig.canvas_draw_idle _)) =>
  apply files_blind_on_fig : blind.
#[local] Hint Extern 1 (files_blind (fig.canvas_start_event_loop _ _)) =>
  apply files_blind_on_fig : blind.

Lemma files_blind_get_fig_ax self : files_blind (get_fig_ax self).
Proof. unfold get_fig_ax. auto 20 with blind. Qed.

Lemma files_blind_display_human self f : files_blind (_display_human self f).
Proof. unfold _display_human. auto 20 with blind. Qed.

#[local] Hint Resolve files_blind_get_fig_ax files_blind_display_human : blind.

Lemma files_blind_animate_state self states f ax i :
  files_blind (animate_state self states f ax i).
Proof. unfold animate_state. auto 20 with blind. Qed.

Lemma keeps_registry_bind {A B} (m : M A) (k : A -> M B) :
  keeps_registry m -> (forall a, keeps_registry (k a)) ->
  keeps_registry (bind m k).
Proof.
  intros Hm Hk w. unfold bind. specialize (Hm w).
  destruct (m w) as [w1 [a|e]]; cbn [fst] in *; [|done].
  by rewrite Hk.
Qed.

Lemma keeps_registry_ret {A} (a : A) : keeps_registry (ret a).
Proof. by intros w. Qed.

Lemma keeps_registry_lift_result {A} (r : Result A) :
  keeps_registry (lift_result r).
Proof. by intros w. Qed.

Lemma union_singleton_present (k : string) (X : gset string) :
  k ∈ X -> {[k]} ∪ X = X.
Proof. intros H. by apply subseteq_union_1_L, singleton_subseteq_l. Qed.

Lemma dom_insert_present (m : gmap string Figure) k fg fg' :
  m !! k = Some fg -> dom (<[k := fg']> m) = dom m.
Proof.
  intros H. rewrite dom_insert_L. apply union_singleton_present.
  apply elem_of_dom. by eexists.
Qed.

Lemma keeps_registry_on_fig f g : keeps_registry (on_fig f g).
Proof.
  intros w. unfold on_fig. destruct (figs w !! f) as [fg|] eqn:H; [|done].
  cbn. by apply dom_insert_present with fg.
Qed.

Lemma keeps_registry_on_ax {A} ax (m : AxM A) : keeps_registry (on_ax ax m).
Proof.
  intros w. unfold on_ax.
  destruct (figs w !! ax_fig ax) as [fg|] eqn:H; [|done].
  destruct (fig_axes fg !! ax_index ax) as [log|]; [|done].
  destruct (m log). cbn. by apply dom_insert_present with fg.
Qed.

Lemma keeps_registry_on_current g : keeps_registry (plt.on_current g).
Proof.
  intros w. unfold plt.on_current. destruct (current w) as [name|]; [|done].
  destruct (figs w !! name) as [fg|] eqn:H; [|done].
  cbn. by apply dom_insert_present with fg.
Qed.

Lemma keeps_registry_isinteractive : keeps_registry plt.isinteractive.
Proof. by intros w. Qed.

Lemma keeps_registry_is_colab : keeps_registry jumanji.is_colab.
Proof. by intros w. Qed.

Lemma keeps_registry_show arg : keeps_registry (plt.show arg).
Proof. by intros w. Qed.

Lemma keeps_registry_savefig f path bbox pad :
  keeps_registry (fig.savefig f path bbox pad).
Proof. intros w. unfold fig.savefig. by destruct (figs w !! f). Qed.

#[local] Hint Resolve keeps_registry_ret keeps_registry_lift_result
  keeps_registry_on_fig keeps_registry_on_ax keeps_registry_on_current
  keeps_registry_isinteractive keeps_registry_is_colab keeps_registry_show
  keeps_registry_savefig : registry.
#[local] Hint Extern 2 (keeps_registry (bind _ _)) =>
  apply keeps_registry_bind; [|intros ?] : registry.
#[local] Hint Extern 2 (keeps_registry (if ?b then _ else _)) =>
  destruct b : registry.
#[local] Hint Extern 1 (keeps_registry plt.tight_layout) =>
  apply keeps_registry_on_current : registry.
#[local] Hint Extern 1 (keeps_registry (fig.suptitle _ _ _)) =>
  apply keeps_registry_on_fig : registry.
#[local] Hint Extern 1 (keeps_registry (fig.canvas_draw _)) =>
  apply keeps_registry_on_fig : registry.
#[local] Hint Extern 1 (keeps_registry (fig.canvas_draw_idle _)) =>
  apply keeps_registry_on_fig : registry.
#[local] Hint Extern 1 (keeps_registry (fig.canvas_start_event_loop _ _)) =>
  apply keeps_registry_on_fig : registry.

Lemma keeps_registry_display_human self f :
  keeps_registry (_display_human self f).
Proof. unfold _display_human. auto 20 with registry. Qed.

#[local] Hint Resolve keeps_registry_display_human : registry.

(** [get_fig_ax] registers the viewer's name and nothing else, whether it
    returns or raises. *)
Lemma get_fig_ax_registry self w :
  dom (figs (get_fig_ax self w).1) = {[_name self]} ∪ dom (figs w).
Proof.
  destruct (figs w !! _name self) as [fg|] eqn:Hfg.
  - assert (_name self ∈ dom (figs w)) by (apply elem_of_dom; by eexists).
    destruct (fig_axes fg) as [|a axs] eqn:Hax.
    + rewrite (get_fig_ax_no_axes self w fg) by done. cbn.
      by rewrite union_singleton_present.
    + rewrite (get_fig_ax_existing self w fg) by (done || by rewrite Hax).
      cbn. by rewrite union_singleton_present.
  - rewrite (get_fig_ax_fresh self w Hfg). cbn. by rewrite dom_insert_L.
Qed.

(** [render] draws on the figure registered under the viewer's name: the
    registry after the call holds that name and the names it held. *)
Lemma render_registry self st save path w :
  dom (figs (render self st save path w).1) = {[_name self]} ∪ dom (figs w).
Proof.
  unfold render. unfold bind at 1.
  pose proof (get_fig_ax_registry self w) as Hreg.
  destruct (get_fig_ax self w) as [w1 [[f ax]|e]]; cbn [fst] in Hreg; [|done].
  rewrite <- Hreg. cbv beta iota.
  match goal with |- dom (figs (?m w1).1) = _ =>
    assert (keeps_registry m) as Hk by auto 20 with registry
  end.
  apply Hk.
Qed.

Lemma set_files_same w : set_files (files w) w = w.
Proof. by destruct w. Qed.

Lemma set_current_same w c : current w = c -> set_current c w = w.
Proof. intros <-. by destruct w. Qed.

(** ** Saving *)

Lemma on_fig_inv f g w w' :
  on_fig f g w = (w', OK tt) -> is_Some (figs w' !! f).
Proof.
  unfold on_fig. destruct (figs w !! f) as [fg|]; [|done].
  intros [= <-]. cbn. rewrite lookup_insert_eq. by eexists.
Qed.

Lemma keeps_registry_lookup {A} (m : M A) w f :
  keeps_registry m -> is_Some (figs w !! f) -> is_Some (figs (m w).1 !! f).
Proof. intros Hm. rewrite <- !elem_of_dom. by rewrite Hm. Qed.

Lemma bind_run {S A B} (m : St S A) (k : A -> St S B) s :
  bind m k s =
    match m s with
    | (s', OK a) => k a s'
    | (s', Raise e) => (s', Raise e)
    end.
Proof. done. Qed.

(** The part of [render] after [get_fig_ax], with and without [save]. *)
Lemma render_body_save_frame self st f ax path w1 :
  let body (save : bool) :=
    (fig.suptitle f (score_title st) 20 ;;
     on_ax ax (draw_board self st) ;;
     (if save then fig.savefig f path "tight" (1 # 2) else ret tt) ;;
     _display_human self f) w1 in
  (body true).2 = (body false).2 /\
  files (body false).1 = files w1 /\
  set_files (files w1) (body true).1 = (body false).1 /\
  ((body false).2 = OK tt ->
   exists snapshot,
     files (body true).1 =
       <[path := ImageFile snapshot "tight" (1 # 2)]> (files w1)).
Proof.
  intros body.
  assert (forall save, body save =
            match fig.suptitle f (score_title st) 20 w1 with
            | (w2, OK _) =>
                match on_ax ax (draw_board self st) w2 with
                | (w3, OK _) =>
                    ((if save then fig.savefig f path "tight" (1 # 2) else ret tt) ;;
                     _display_human self f) w3
                | (w3, Raise e) => (w3, Raise e)
                end
            | (w2, Raise e) => (w2, Raise e)
            end) as Hbody by done.
  rewrite !Hbody. clear Hbody body.
  pose proof (files_blind_files (fig.suptitle f (score_title st) 20) w1
                (files_blind_on_fig _ _)) as H2.
  pose proof (on_fig_inv f (log_fig_call (FigSuptitle (score_title st) 20)) w1)
    as Hf2.
  unfold fig.suptitle in *.
  destruct (on_fig f _ w1) as [w2 [[]|e]]; cbn [fst snd] in *.
  2:{ split_and!; try done. by rewrite <- H2, set_files_same. }
  specialize (Hf2 w2 eq_refl).
  pose proof (files_blind_files (on_ax ax (draw_board self st)) w2
                (files_blind_on_ax _ _)) as H3.
  pose proof (keeps_registry_lookup (on_ax ax (draw_board self st)) w2 f
                (keeps_registry_on_ax _ _) Hf2) as [fg3 Hf3].
  destruct (on_ax ax (draw_board self st) w2) as [w3 [[]|e]]; cbn [fst snd] in *.
  2:{ split_and!; try done; [congruence|]. rewrite <- H2, <- H3.
      by rewrite set_files_same. }
  pose proof (files_blind_display_human self f) as Hd.
  pose proof (files_blind_files (_display_human self f) w3 Hd) as H4.
  rewrite !bind_run. unfold ret, fig.savefig. rewrite Hf3, Hd.
  destruct (_display_human self f w3) as [w4 r].
  cbn [fst snd files set_files] in *.
  assert (files w4 = files w1) as Hfiles by congruence.
  split_and!; try done.
  - rewrite <- Hfiles. by destruct w4.
  - intros _. exists fg3. rewrite ?Hd. cbn [fst snd files set_files].
    congruence.
Qed.

(** [render] with and without [save]: the same outcome and the same
    world, up to the one file. *)
Lemma render_save_frame self st path w :
  (render self st true path w).2 = (render self st false path w).2 /\
  files (render self st false path w).1 = files w /\
  set_files (files w) (render self st true path w).1 =
    (render self st false path w).1 /\
  ((render self st false path w).2 = OK tt ->
   exists snapshot,
     files (render self st true path w).1 =
       <[path := ImageFile snapshot "tight" (1 # 2)]> (files w)).
Proof.
  unfold render. rewrite !bind_run.
  pose proof (files_blind_files (get_fig_ax self) w
                (files_blind_get_fig_ax self)) as H1.
  destruct (get_fig_ax self w) as [w1 [[f ax]|e]]; cbn [fst snd] in *.
  - rewrite <- H1. apply render_body_save_frame.
  - split_and!; try done. by rewrite <- H1, set_files_same.
Qed.

(** ** The frame callback *)

Lemma getitem_nat {A} (xs : list A) (i : nat) x :
  xs !! i = Some x -> getitem xs (Z.of_nat i) = OK x.
Proof.
  intros Hx. pose proof (lookup_lt_Some _ _ _ Hx) as Hlt. unfold getitem.
  destruct (Z.ltb_spec (Z.of_nat i) 0); [lia|].
  destruct (Z.leb_spec 0 (Z.of_nat i)); [|lia].
  destruct (Z.ltb_spec (Z.of_nat i) (Z.of_nat (length xs))); [|lia].
  cbn [andb]. by rewrite Nat2Z.id, Hx.
Qed.

(** One frame: the callback for index [i] redraws the board of
    [states[i]] on the axes and then sets the title from its score. *)
Lemma animate_state_run self states f ax (i : nat) st w0 fg log :
  ax_fig ax = f ->
  states !! i = Some st ->
  well_formed (_board_size self) (board st) = true ->
  figs w0 !! f = Some fg ->
  fig_axes fg !! ax_index ax = Some log ->
  animate_state self states f ax (Z.of_nat i) w0 =
    (set_figs
       (<[f := log_fig_call (FigSuptitle (score_title st) 20)
                 (set_fig_axes
                    (<[ax_index ax :=
                        log ++ board_calls (_board_size self) (board st)]>
                       (fig_axes fg)) fg)]> (figs w0)) w0,
     OK tt).
Proof.
  intros Hax Hst Hwf Hfg Hlog. subst f.
  unfold animate_state. rewrite bind_run. unfold lift_result.
  rewrite (getitem_nat _ _ _ Hst). rewrite bind_run.
  rewrite (on_ax_ok ax _ w0 fg log Hfg Hlog), (draw_board_ok self st log Hwf).
  cbn [fst snd]. unfold fig.suptitle.
  erewrite on_fig_ok; [|cbn [figs set_figs]; apply lookup_insert_eq].
  cbn [figs set_figs]. by rewrite insert_insert_eq.
Qed.

Lemma fig_title_suptitle t size fg :
  fig_title (log_fig_call (FigSuptitle t size) fg) = Some t.
Proof.
  unfold fig_title. cbn [fig_calls log_fig_call].
  rewrite omap_app. by apply last_snoc.
Qed.

Lemma fig_title_tight_layout fg :
  fig_title (log_fig_call FigTightLayout fg) = fig_title fg.
Proof.
  unfold fig_title. cbn [fig_calls log_fig_call].
  by rewrite omap_app, app_nil_r.
Qed.

(** ** [render_tile]: which values raise *)

(** X1.  [render_tile] either returns, which it does exactly for the keys
    of the palette and the values above 16384, or raises [KeyError] for
    the value, which it does for every other value (the negative ones
    included), and then it has drawn nothing. *)
Theorem render_tile_outcome (v row col : Z) (ax : Axes) :
  ((render_tile v row col ax).2 = OK tt /\
   (v ∈ palette_values \/ 16384 < v)) \/
  (render_tile v row col ax = (ax, Raise (KeyError (KInt v))) /\
   v <= 16384 /\ v ∉ palette_values).
Proof.
  destruct (decide (v ∈ palette_values)) as [Hin|Hout].
  - left. split; [|by left].
    rewrite render_tile_frame. cbn [snd]. apply renderable_ok.
    unfold renderable. by rewrite bool_decide_eq_true_2.
  - destruct (Z.ltb_spec 16384 v) as [Hgt|Hle].
    + left. split; [|by right].
      rewrite render_tile_frame. cbn [snd]. apply renderable_ok.
      unfold renderable. apply orb_true_iff. right. by apply Z.ltb_lt.
    + right. split_and!; [|done|done]. by apply render_tile_key_error.
Qed.

(** ** [draw_board]: what it draws, and what it leaves when it fails *)

Lemma framed_ret {A} (a : A) : framed (ret a).
Proof. intros ax. cbn. by rewrite app_nil_r. Qed.

Lemma framed_lift_result {A} (r : Result A) : framed (lift_result r).
Proof. intros ax. cbn. by rewrite app_nil_r. Qed.

Lemma framed_ax_call c : framed (ax_call c).
Proof. by intros ax. Qed.

Lemma framed_bind {A B} (m : AxM A) (k : A -> AxM B) :
  framed m -> (forall a, framed (k a)) -> framed (bind m k).
Proof.
  intros Hm Hk ax. unfold bind. rewrite (Hm ax).
  destruct (m []) as [t1 [a|e]]; cbn [fst snd]; [|done].
  rewrite (Hk a (ax ++ t1)), (Hk a t1). cbn [fst snd].
  by rewrite app_assoc.
Qed.

Lemma framed_for_each {A} (xs : list A) (body : A -> AxM unit) :
  (forall x, framed (body x)) -> framed (for_each xs body).
Proof.
  intros Hbody. induction xs as [|x xs IH]; cbn [for_each].
  - apply framed_ret.
  - apply framed_bind; [apply Hbody|by intros _].
Qed.

Lemma framed_render_tile v row col : framed (render_tile v row col).
Proof. intros ax. apply render_tile_frame. Qed.

Create HintDb framed.

#[local] Hint Resolve framed_ret framed_lift_result framed_ax_call
  framed_render_tile : framed.
#[local] Hint Extern 2 (framed (bind _ _)) =>
  apply framed_bind; [|intros ?] : framed.
#[local] Hint Extern 2 (framed (for_each _ _)) =>
  apply framed_for_each; intros ? : framed.

Lemma framed_draw_board self st : framed (draw_board self st).
Proof. unfold draw_board. auto 20 with framed. Qed.

Lemma for_each_app {S A} (xs ys : list A) (body : A -> St S unit) s :
  for_each (xs ++ ys) body s = (for_each xs body ;; for_each ys body) s.
Proof.
  revert s. induction xs as [|x xs IH]; intros s; [done|].
  cbn [app for_each]. rewrite !bind_run.
  destruct (body x s) as [s1 [[]|e]]; [|done].
  by rewrite IH, bind_run.
Qed.

Lemma for_each_fmap {S A B} (g : A -> B) (xs : list A) (body : B -> St S unit) s :
  for_each (g <$> xs) body s = for_each xs (fun x => body (g x)) s.
Proof.
  revert s. induction xs as [|x xs IH]; intros s; [done|].
  cbn [fmap list_fmap for_each]. rewrite !bind_run.
  destruct (body (g x) s) as [s1 [[]|e]]; [|done]. apply IH.
Qed.

Lemma for_each_product {S} (rows cols : list Z) (body : Z -> Z -> St S unit) s :
  for_each rows (fun row => for_each cols (body row)) s =
  for_each (rows ≫= (fun row => (fun col => (row, col)) <$> cols))
           (fun cell => body cell.1 cell.2) s.
Proof.
  revert s. induction rows as [|r rows IH]; intros s; [done|].
  rewrite bind_cons, for_each_app. cbn [for_each]. rewrite !bind_run.
  rewrite for_each_fmap. cbn [fst snd].
  destruct (for_each cols (body r) s) as [s1 [[]|e]]; [|done]. apply IH.
Qed.

(** The two nested loops of [draw_board] are one loop over the cells. *)
Lemma for_each_cells {S} (n : Z) (body : Z -> Z -> St S unit) s :
  for_each (range 0 n) (fun row => for_each (range 0 n) (body row)) s =
  for_each (cells n) (fun cell => body cell.1 cell.2) s.
Proof. apply for_each_product. Qed.

Lemma well_formed_cell_ok n b : well_formed n b = forallb (cell_ok b) (cells n).
Proof. done. Qed.

Lemma cell_ok_run b row col ax :
  cell_ok b (row, col) = true ->
  (let* tile_value := lift_result (board_getitem b row col) in
   render_tile tile_value row col) ax = (ax ++ tile_trace b (row, col), OK tt).
Proof.
  unfold cell_ok, tile_trace. cbn [fst snd].
  destruct (board_getitem b row col) as [v|e]; [|done]. intros Hv.
  cbv [bind lift_result]. rewrite render_tile_frame.
  by rewrite (renderable_ok v row col Hv).
Qed.

(** X2.  On a board that covers the configured side with values that have
    a patch colour, [draw_board] returns and has made, after whatever the
    axes held: the clear, the two tick calls and the tick parameters; the
    calls of [render_tile] for the cells in row-major order; the image of
    the board and the grid.  The cells are those with both indices from 0
    below [board_size], each once. *)
Theorem draw_board_renders_every_cell_once (self : Game2048Viewer)
    (st : State) (ax : Axes) :
  well_formed (_board_size self) (board st) = true ->
  draw_board self st ax =
    (ax ++ board_setup
        ++ (cells (_board_size self) ≫= tile_trace (board st))
        ++ board_finish (board st),
     OK tt) /\
  NoDup (cells (_board_size self)) /\
  (forall row col,
      (row, col) ∈ cells (_board_size self) <->
      0 <= row < _board_size self /\ 0 <= col < _board_size self).
Proof.
  intros Hwf. split; [|split].
  - by rewrite (draw_board_ok self st ax Hwf).
  - apply NoDup_cells.
  - intros row col. apply elem_of_cells.
Qed.

Lemma draw_board_renders_every_cell_once_witness :
  draw_board (__init__ "2048" 4) example_state [AxAxis "off"] =
    ([AxAxis "off"] ++ board_setup
        ++ (cells 4 ≫= tile_trace (board example_state))
        ++ board_finish (board example_state),
     OK tt).
Proof.
  apply (draw_board_renders_every_cell_once (__init__ "2048" 4) example_state).
  by vm_compute.
Defined.

(** X3.  A viewer whose [board_size] is 0 or negative renders no tile: the
    loops are empty, so on a rectangular board, whatever values it holds,
    [draw_board] returns with the set-up calls, the image and the grid
    only. *)
Theorem draw_board_without_cells (self : Game2048Viewer) (st : State)
    (ax : Axes) :
  _board_size self <= 0 ->
  rectangular (board st) = true ->
  draw_board self st ax =
    (ax ++ board_setup ++ board_finish (board st), OK tt).
Proof.
  intros Hn _.
  assert (cells (_board_size self) = []) as Hcells.
  { unfold cells, range. by rewrite seqZ_nil by lia. }
  rewrite (draw_board_ok self st ax).
  - unfold board_calls. by rewrite Hcells.
  - unfold well_formed. by rewrite Hcells.
Qed.

Lemma draw_board_without_cells_witness :
  draw_board (__init__ "2048" 0) (mkState [[1; 3]; [5; 7]] (inject_Z 0)) [] =
    ([] ++ board_setup ++ board_finish [[1; 3]; [5; 7]], OK tt).
Proof.
  apply (draw_board_without_cells (__init__ "2048" 0)
           (mkState [[1; 3]; [5; 7]] (inject_Z 0))).
  - cbn. lia.
  - by vm_compute.
Defined.

(** X4.  [draw_board] stops at the first cell, in row-major order, whose
    value has no palette entry and is not above 16384: it raises the
    [KeyError] of that value.  The axes then holds a half-drawn board: it
    has been cleared and set up, the cells before the bad one are drawn,
    and neither the image nor the grid has been drawn. *)
Theorem draw_board_stops_at_bad_tile (self : Game2048Viewer) (st : State)
    (ax : Axes) (pre post : list (Z * Z)) (row col v : Z) :
  cells (_board_size self) = pre ++ (row, col) :: post ->
  forallb (cell_ok (board st)) pre = true ->
  board_getitem (board st) row col = OK v ->
  v <= 16384 -> v ∉ palette_values ->
  draw_board self st ax =
    (ax ++ board_setup ++ (pre ≫= tile_trace (board st)),
     Raise (KeyError (KInt v))).
Proof.
  intros Hcells Hpre Hv Hle Hout. rewrite forallb_forall in Hpre.
  unfold draw_board. rewrite arange_fixed_ticks.
  do 4 (erewrite bind_ok; [|reflexivity]).
  rewrite bind_run.
  rewrite (for_each_cells (_board_size self)
             (fun row col =>
                let* tile_value := lift_result (board_getitem (board st) row col) in
                render_tile tile_value row col)).
  rewrite Hcells, for_each_app, bind_run.
  rewrite (for_each_trace pre _ (tile_trace (board st))).
  2:{ intros [r c] Hin a. cbn [fst snd]. apply cell_ok_run.
      by apply Hpre, list_elem_of_In. }
  cbn [for_each fst snd]. rewrite bind_run. cbv [bind lift_result] in *.
  rewrite Hv, (render_tile_key_error v row col _ Hle Hout).
  unfold board_setup. by rewrite <- !app_assoc.
Qed.

Lemma draw_board_stops_at_bad_tile_witness :
  draw_board (__init__ "2048" 4) broken_state [] =
    ([] ++ board_setup
        ++ ([(0, 0); (0, 1)] ≫= tile_trace (board broken_state)),
     Raise (KeyError (KInt 1))).
Proof.
  apply (draw_board_stops_at_bad_tile (__init__ "2048" 4) broken_state []
           [(0, 0); (0, 1)]
           [(0, 3); (1, 0); (1, 1); (1, 2); (1, 3); (2, 0); (2, 1); (2, 2);
            (2, 3); (3, 0); (3, 1); (3, 2); (3, 3)] 0 2 1).
  - by vm_compute.
  - by vm_compute.
  - by vm_compute.
  - lia.
  - intros H. unfold palette_values in H.
    repeat (apply elem_of_cons in H as [H|H]; [discriminate|]).
    by apply elem_of_nil in H.
Defined.

(** *** What the axes shows after [draw_board] *)

Lemma shown_calls_app l1 l2 :
  shown_calls (l1 ++ l2) =
    fold_left (fun acc c => match c with AxClear => [] | _ => acc ++ [c] end)
              l2 (shown_calls l1).
Proof. unfold shown_calls. apply fold_left_app. Qed.

Lemma fold_no_clear (l acc : list AxCall) :
  Forall (fun c => c <> AxClear) l ->
  fold_left (fun acc c => match c with AxClear => [] | _ => acc ++ [c] end)
            l acc = acc ++ l.
Proof.
  intros Hl. revert acc. induction Hl as [|c l Hc Hl IH]; intros acc.
  - cbn. by rewrite app_nil_r.
  - cbn [fold_left]. rewrite IH. destruct c; try done;
      by rewrite <- app_assoc.
Qed.

Lemma render_tile_calls_no_clear v row col :
  Forall (fun c => c <> AxClear) (render_tile v row col []).1.
Proof.
  destruct (if v <=? 16384 then COLORS !! KInt v else COLORS !! KStr "other")
    as [c|] eqn:Hc.
  - destruct (render_tile_from_patch v row col c [] Hc) as (color & _ & ->).
    cbn [fst app]. destruct (v =? 0); repeat constructor; done.
  - assert (render_tile v row col [] = ([], Raise (KeyError (KInt v)))) as ->.
    { cbv [render_tile bind lift_result dict_getitem].
      destruct (v <=? 16384); [by rewrite Hc|discriminate]. }
    constructor.
Qed.

Lemma tile_trace_no_clear b cell :
  Forall (fun c => c <> AxClear) (tile_trace b cell).
Proof.
  unfold tile_trace. destruct (board_getitem b cell.1 cell.2); [|constructor].
  apply render_tile_calls_no_clear.
Qed.

(** X5.  [draw_board] replaces what the axes shows.  On a well-formed
    board, the calls in force after it (those since the last clear) are
    the ticks, the tick parameters, the tiles of this board, the image and
    the grid, whatever the axes held before: frames of an animation do not
    pile up, and drawing the same state twice shows what drawing it once
    shows. *)
Theorem draw_board_replaces_content (self : Game2048Viewer) (st : State)
    (ax : Axes) :
  well_formed (_board_size self) (board st) = true ->
  shown_calls (draw_board self st ax).1 =
    [AxSetXTicks fixed_ticks; AxSetYTicks fixed_ticks;
     AxTickParams false false false false false false false false]
    ++ (cells (_board_size self) ≫= tile_trace (board st))
    ++ board_finish (board st) /\
  shown_calls (draw_board self st (draw_board self st ax).1).1 =
    shown_calls (draw_board self st ax).1.
Proof.
  intros Hwf.
  assert (forall a,
            shown_calls (draw_board self st a).1 =
              [AxSetXTicks fixed_ticks; AxSetYTicks fixed_ticks;
               AxTickParams false false false false false false false false]
              ++ (cells (_board_size self) ≫= tile_trace (board st))
              ++ board_finish (board st)) as Hshown.
  { intros a. rewrite (draw_board_ok self st a Hwf). cbn [fst].
    rewrite shown_calls_app. unfold board_calls. cbn [app fold_left].
    rewrite fold_no_clear; [done|].
    repeat (apply Forall_cons; split; [done|]).
    apply Forall_app. split.
    - apply Forall_bind. apply Forall_forall. intros cell _.
      apply tile_trace_no_clear.
    - unfold board_finish. by repeat constructor. }
  split; [apply Hshown|]. by rewrite !Hshown.
Qed.

Lemma draw_board_replaces_content_witness :
  shown_calls (draw_board (__init__ "2048" 4) example_state
                 (draw_board (__init__ "2048" 4) second_state []).1).1 =
    [AxSetXTicks fixed_ticks; AxSetYTicks fixed_ticks;
     AxTickParams false false false false false false false false]
    ++ (cells 4 ≫= tile_trace (board example_state))
    ++ board_finish (board example_state).
Proof.
  refine (proj1 (draw_board_replaces_content (__init__ "2048" 4) example_state
                   (draw_board (__init__ "2048" 4) second_state []).1 _)).
  by vm_compute.
Defined.

(** ** [render] and [_display_human] *)

Lemma display_human_run self f w fg :
  figs w !! f = Some fg ->
  _display_human self f w =
    (set_shown (shown w ++ (if interactive w && colab w
                            then [_name self] else []))
       (set_figs (<[f := add_fig_calls (flush_calls (interactive w)) fg]>
                    (figs w)) w),
     OK tt).
Proof.
  intros Hfg. unfold _display_human, plt.isinteractive, jumanji.is_colab,
    fig.canvas_draw, fig.canvas_draw_idle, fig.canvas_start_event_loop, plt.show.
  rewrite bind_run. destruct (interactive w) eqn:Hi; cbv beta iota.
  - rewrite bind_run, (on_fig_ok _ _ _ _ Hfg), bind_run. cbn [colab set_figs].
    destruct (colab w) eqn:Hc; cbn; unfold set_shown, set_figs, flush_calls;
      cbn; rewrite ?Hi, ?Hc, ?app_nil_r; [done|]. by destruct w.
  - rewrite bind_run, (on_fig_ok _ _ _ _ Hfg).
    erewrite on_fig_ok; [|cbn [figs set_figs]; apply lookup_insert_eq].
    cbn [figs set_figs]. rewrite insert_insert_eq, app_nil_r.
    unfold set_shown, set_figs, add_fig_calls, log_fig_call, flush_calls. cbn.
    rewrite Hi, <- app_assoc. by destruct w.
Qed.

(** [render], step by step, on a surface in the store and a well-formed
    state. *)
Lemma render_run (self : Game2048Viewer) (st : State) (save : bool)
    (path : string) (w w1 : World) (f : string) (ax : AxHandle)
    (fg : Figure) (log : Axes) :
  get_fig_ax self w = (w1, OK (f, ax)) ->
  ax_fig ax = f ->
  figs w1 !! f = Some fg ->
  fig_axes fg !! ax_index ax = Some log ->
  well_formed (_board_size self) (board st) = true ->
  render self st save path w =
    ((if save
      then set_files
             (<[path := ImageFile (drawn_figure self st (ax_index ax) log fg)
                                  "tight" (1 # 2)]> (files w1))
      else fun w0 => w0)
       (set_shown
          (shown w1 ++ (if interactive w1 && colab w1
                        then [_name self] else []))
          (set_figs
             (<[f := add_fig_calls (flush_calls (interactive w1))
                       (drawn_figure self st (ax_index ax) log fg)]>
                (figs w1)) w1)),
     OK tt).
Proof.
  intros Hget Hax Hfg Hlog Hwf.
  unfold render. rewrite bind_run, Hget. cbv beta iota.
  rewrite bind_run. unfold fig.suptitle. rewrite (on_fig_ok _ _ _ _ Hfg).
  rewrite bind_run.
  erewrite (on_ax_ok ax _ _ (log_fig_call (FigSuptitle (score_title st) 20) fg) log);
    [|cbn [figs set_figs]; rewrite Hax; apply lookup_insert_eq|exact Hlog].
  rewrite (draw_board_ok self st log Hwf). cbn [fst snd figs set_figs].
  rewrite Hax, insert_insert_eq.
  change (set_fig_axes _ (log_fig_call _ fg))
    with (drawn_figure self st (ax_index ax) log fg).
  rewrite bind_run. destruct save.
  - unfold fig.savefig. cbn [figs set_figs]. rewrite lookup_insert_eq.
    erewrite display_human_run;
      [|cbn [figs set_figs set_files]; apply lookup_insert_eq].
    cbn. by rewrite insert_insert_eq.
  - unfold ret.
    erewrite display_human_run; [|cbn [figs set_figs]; apply lookup_insert_eq].
    cbn. by rewrite insert_insert_eq.
Qed.



(** X7.  When [draw_board] raises, [render] raises the same exception
    and stops there: the figure has already got its title and the axes
    keeps the part of the board drawn before the exception, but no file is
    written, also with [save] set, and the display is not flushed. *)
Theorem render_failure_writes_nothing (self : Game2048Viewer) (st : State)
    (save : bool) (path : string) (w w1 : World) (f : string) (ax : AxHandle)
    (e : Exn) :
  get_fig_ax self w = (w1, OK (f, ax)) ->
  (draw_board self st []).2 = Raise e ->
  exists (fg : Figure) (log : Axes) (w' : World),
    figs w1 !! f = Some fg /\
    fig_axes fg !! ax_index ax = Some log /\
    render self st save path w = (w', Raise e) /\
    figs w' =
      <[f := add_fig_calls [FigSuptitle (score_title st) 20]
               (set_fig_axes
                  (<[ax_index ax := log ++ (draw_board self st []).1]>
                     (fig_axes fg)) fg)]> (figs w1) /\
    files w' = files w /\
    shown w' = shown w.
Proof.
  intros Hget Hraise.
  destruct (get_fig_ax_handles self w w1 f ax Hget)
    as (_ & Hax & _ & Hfiles & _ & _ & Hshown & fg & log & Hfg & Hlog & _).
  exists fg, log. eexists. split; [done|]. split; [done|].
  unfold render. rewrite bind_run, Hget. cbv beta iota.
  rewrite bind_run. unfold fig.suptitle. rewrite (on_fig_ok _ _ _ _ Hfg).
  rewrite bind_run.
  erewrite (on_ax_ok ax _ _ (log_fig_call (FigSuptitle (score_title st) 20) fg) log);
    [|cbn [figs set_figs]; rewrite Hax; apply lookup_insert_eq|exact Hlog].
  rewrite (framed_draw_board self st log), Hraise. cbn [fst snd figs set_figs].
  rewrite Hax, insert_insert_eq. split; [reflexivity|]. cbn. by split_and!.
Qed.

Lemma render_failure_writes_nothing_witness :
  exists (w' : World),
    render (__init__ "2048" 4) broken_state true "./2048.png"
           (empty_world false false) = (w', Raise (KeyError (KInt 1))) /\
    files w' = ∅.
Proof.
  destruct (render_failure_writes_nothing (__init__ "2048" 4) broken_state true
              "./2048.png" (empty_world false false)
              (get_fig_ax (__init__ "2048" 4) (empty_world false false)).1
              "2048" (mkAx "2048" 1) (KeyError (KInt 1)))
    as (fg & log & w' & _ & _ & Hrun & _ & Hfiles & _);
    [by vm_compute|by vm_compute|].
  by exists w'.
Defined.

(** ** Two renders, one figure *)

(** The world [render] leaves, field by field. *)
Lemma render_world (self : Game2048Viewer) (st : State) (save : bool)
    (path : string) (w w1 : World) (f : string) (ax : AxHandle)
    (fg : Figure) (log : Axes) :
  get_fig_ax self w = (w1, OK (f, ax)) ->
  ax_fig ax = f ->
  figs w1 !! f = Some fg ->
  fig_axes fg !! ax_index ax = Some log ->
  well_formed (_board_size self) (board st) = true ->
  exists w' : World,
    render self st save path w = (w', OK tt) /\
    figs w' = <[f := add_fig_calls (flush_calls (interactive w1))
                        (drawn_figure self st (ax_index ax) log fg)]> (figs w1) /\
    current w' = current w1 /\
    interactive w' = interactive w1.
Proof.
  intros Hget Hax Hfg Hlog Hwf.
  rewrite (render_run self st save path w w1 f ax fg log Hget Hax Hfg Hlog Hwf).
  eexists. split; [reflexivity|]. by destruct save.
Qed.



(** ** [animate] *)

Lemma set_figs_same w : set_figs (figs w) w = w.
Proof. by destruct w. Qed.

Lemma titled_figure_calls fg :
  log_fig_call FigTightLayout
    (log_fig_call (FigSuptitle "2048    Score: 0" 20) fg) = titled_figure fg.
Proof.
  unfold titled_figure, add_fig_calls, log_fig_call. cbn.
  by rewrite <- app_assoc.
Qed.

(** [get_fig_ax] does not change what the canvas can do. *)
Lemma get_fig_ax_supports_blit self w :
  supports_blit (get_fig_ax self w).1 = supports_blit w.
Proof.
  destruct (figs w !! _name self) as [fg|] eqn:Hfg.
  - destruct (fig_axes fg) as [|a axs] eqn:Hax.
    + by rewrite (get_fig_ax_no_axes self w fg).
    + by rewrite (get_fig_ax_existing self w fg) by (done || by rewrite Hax).
  - by rewrite (get_fig_ax_fresh self w Hfg).
Qed.

(** [animate] on a surface that [get_fig_ax] returned: it titles the
    figure, lays it out, creates the animation and stores it on the
    viewer.  Without [save] that is all; with [save] the rest of the call
    is [Animation.save], and the handle is returned if that returns. *)
Lemma animate_created self states interval blit save path w w1 f ax fg :
  get_fig_ax self w = (w1, OK (f, ax)) ->
  figs w1 !! f = Some fg ->
  let anim := mkFuncAnimation f (animate_state self states f ax)
                              (length states) (blit && supports_blit w)
                              interval in
  let self' := mkViewer (_name self) (_board_size self) (Some anim) in
  let w2 := set_figs (<[f := titled_figure fg]> (figs w1)) w1 in
  animate states interval blit save path (self, w) =
    if save
    then ((self', (animation.save anim path w2).1),
          match (animation.save anim path w2).2 with
          | OK _ => OK (Some anim)
          | Raise e => Raise e
          end)
    else ((self', w2), OK (Some anim)).
Proof.
  intros Hrun Hfg anim self' w2.
  destruct (get_fig_ax_handles self w w1 f ax Hrun) as (_ & _ & Hcur & _).
  pose proof (get_fig_ax_supports_blit self w) as Hblit.
  rewrite Hrun in Hblit. cbn [fst] in Hblit.
  unfold animate. rewrite bind_run. unfold get_self at 1. cbn [fst snd].
  rewrite bind_run. unfold in_world at 1. cbn [fst snd]. rewrite Hrun.
  cbv beta iota. rewrite bind_run. unfold in_world at 1. cbn [fst snd].
  unfold fig.suptitle. rewrite (on_fig_ok _ _ _ fg Hfg).
  rewrite bind_run. unfold in_world at 1. cbn [fst snd].
  unfold plt.tight_layout, plt.on_current.
  cbn [current figs set_figs]. rewrite Hcur, lookup_insert_eq, insert_insert_eq.
  rewrite titled_figure_calls.
  change (set_figs (<[f:=titled_figure fg]> (figs w1)) (set_figs _ w1)) with w2.
  rewrite bind_run. unfold in_world at 1, animation.FuncAnimation.
  cbn [fst snd]. change (supports_blit w2) with (supports_blit w1).
  rewrite Hblit. fold anim.
  rewrite bind_run. unfold set_animation at 1. cbn [fst snd].
  fold self'. rewrite bind_run. destruct save.
  - unfold in_world at 1. cbn [fst snd].
    destruct (animation.save anim path w2) as [w3 [[]|e]]; done.
  - done.
Qed.

Lemma animate_raise self states interval blit save path w w1 e :
  get_fig_ax self w = (w1, Raise e) ->
  animate states interval blit save path (self, w) = ((self, w1), Raise e).
Proof.
  intros Hrun. unfold animate. rewrite bind_run. unfold get_self at 1.
  cbn [fst snd]. rewrite bind_run. unfold in_world at 1. cbn [fst snd].
  by rewrite Hrun.
Qed.

(** *** The frames that [Animation.save] draws *)

Lemma insert_as_alter {A} (l : list A) (i : nat) (x : A) (g : A -> A) :
  l !! i = Some x -> <[i := g x]> l = alter g i l.
Proof.
  revert i. induction l as [|a l IH]; intros [|i] Hx; try done.
  - cbn in *. by injection Hx as ->.
  - cbn in *. f_equal. by apply IH.
Qed.

Lemma frames_on_nil self i fg : frames_on self i [] fg = fg.
Proof.
  unfold frames_on. cbn. rewrite list_alter_id by (intros; apply app_nil_r).
  rewrite app_nil_r. by destruct fg.
Qed.

Lemma frames_on_app self i sts1 sts2 fg :
  frames_on self i sts2 (frames_on self i sts1 fg) =
    frames_on self i (sts1 ++ sts2) fg.
Proof.
  unfold frames_on. cbn [fig_figsize fig_facecolor fig_axes fig_calls].
  rewrite list_alter_alter_eq, fmap_app, bind_app, <- app_assoc. f_equal.
  apply list_alter_ext; [|done]. intros x _. cbn. by rewrite <- app_assoc.
Qed.

Lemma frames_on_axes self i sts fg :
  is_Some (fig_axes fg !! i) -> is_Some (fig_axes (frames_on self i sts fg) !! i).
Proof.
  intros [log Hlog]. cbn. rewrite list_lookup_alter_eq, Hlog. by eexists.
Qed.

Lemma all_well_formed_lookup self states (i : nat) st :
  all_well_formed self states = true ->
  states !! i = Some st ->
  well_formed (_board_size self) (board st) = true.
Proof.
  unfold all_well_formed. rewrite forallb_forall. intros Hall Hst.
  apply Hall, list_elem_of_In. by eapply list_elem_of_lookup_2.
Qed.

(** One frame, on a well-formed board. *)
Lemma frame_run self states f ax (i : nat) st w0 fg :
  ax_fig ax = f ->
  states !! i = Some st ->
  well_formed (_board_size self) (board st) = true ->
  figs w0 !! f = Some fg ->
  is_Some (fig_axes fg !! ax_index ax) ->
  animate_state self states f ax (Z.of_nat i) w0 =
    (set_figs (<[f := frames_on self (ax_index ax) [st] fg]> (figs w0)) w0,
     OK tt).
Proof.
  intros Hax Hst Hwf Hfg [log Hlog].
  rewrite (animate_state_run self states f ax i st w0 fg log) by done.
  do 3 f_equal. unfold frames_on, log_fig_call, set_fig_axes. cbn. f_equal.
  rewrite app_nil_r. by apply (insert_as_alter _ _ log (fun l => l ++ _)).
Qed.

(** One frame drawn by a driver that does not blit. *)
Lemma draw_frame_run self states interval f ax (i : nat) st w0 fg :
  ax_fig ax = f ->
  states !! i = Some st ->
  well_formed (_board_size self) (board st) = true ->
  figs w0 !! f = Some fg ->
  is_Some (fig_axes fg !! ax_index ax) ->
  animation.draw_frame
    (mkFuncAnimation f (animate_state self states f ax) (length states)
                     false interval) (Z.of_nat i) w0 =
    (set_figs (<[f := frames_on self (ax_index ax) [st] fg]> (figs w0)) w0,
     OK tt).
Proof.
  intros Hax Hst Hwf Hfg Hlog. unfold animation.draw_frame.
  cbn [anim_func anim_blit]. rewrite bind_run.
  by rewrite (frame_run self states f ax i st w0 fg).
Qed.

(** The first [k] frames, one after the other. *)
Lemma frames_run self states interval f ax (k : nat) w0 fg :
  ax_fig ax = f ->
  (k <= length states)%nat ->
  all_well_formed self states = true ->
  figs w0 !! f = Some fg ->
  is_Some (fig_axes fg !! ax_index ax) ->
  for_each (range 0 (Z.of_nat k))
    (animation.draw_frame
       (mkFuncAnimation f (animate_state self states f ax) (length states)
                        false interval)) w0 =
    (set_figs (<[f := frames_on self (ax_index ax) (take k states) fg]>
                 (figs w0)) w0,
     OK tt).
Proof.
  intros Hax Hk Hwf Hfg Hlog. unfold range. rewrite Z.sub_0_r.
  induction k as [|k IH].
  - cbn. by rewrite frames_on_nil, insert_id, set_figs_same.
  - destruct (lookup_lt_is_Some_2 states k ltac:(lia)) as [st Hst].
    rewrite seqZ_S, for_each_app, bind_run, IH by lia.
    cbn [for_each]. rewrite bind_run.
    rewrite Z.add_0_l.
    rewrite (draw_frame_run self states interval f ax k st _
               (frames_on self (ax_index ax) (take k states) fg));
      [|done|done|by eapply all_well_formed_lookup
       |cbn [figs set_figs]; apply lookup_insert_eq|by apply frames_on_axes].
    cbn [figs set_figs]. rewrite insert_insert_eq, frames_on_app.
    by rewrite (take_S_r _ _ _ Hst).
Qed.

(** [Animation.save] without blitting, on a sequence of well-formed
    states that is not empty: the first state is drawn once, then every
    state, and the file is written. *)
Lemma save_run self states interval path f ax w2 fg :
  ax_fig ax = f ->
  states <> [] ->
  all_well_formed self states = true ->
  figs w2 !! f = Some fg ->
  is_Some (fig_axes fg !! ax_index ax) ->
  animation.save (mkFuncAnimation f (animate_state self states f ax)
                                  (length states) false interval) path w2 =
    (set_files (<[path := AnimationFile f (length states) interval false]>
                  (files w2))
       (set_figs (<[f := frames_on self (ax_index ax) (drawn_frames states) fg]>
                    (figs w2)) w2),
     OK tt).
Proof.
  intros Hax Hne Hwf Hfg Hlog. destruct states as [|s0 rest]; [done|].
  set (anim := mkFuncAnimation f (animate_state self (s0 :: rest) f ax)
                               (length (s0 :: rest)) false interval).
  unfold animation.save.
  change (anim_frames anim) with (S (length rest)). cbv beta iota.
  subst anim. rewrite bind_run.
  pose proof (draw_frame_run self (s0 :: rest) interval f ax 0 s0 w2 fg Hax
                eq_refl
                (all_well_formed_lookup self (s0 :: rest) 0 s0 Hwf eq_refl)
                Hfg Hlog) as Hfirst.
  change (Z.of_nat 0) with 0 in Hfirst. rewrite Hfirst.
  rewrite bind_run.
  rewrite (frames_run self (s0 :: rest) interval f ax (S (length rest)) _
             (frames_on self (ax_index ax) [s0] fg) Hax);
    [|done|done|cbn [figs set_figs]; apply lookup_insert_eq
     |by apply frames_on_axes].
  cbn [figs set_figs files set_files anim_fig anim_interval anim_blit].
  rewrite insert_insert_eq, frames_on_app.
  change (S (length rest)) with (length (s0 :: rest)). by rewrite firstn_all.
Qed.

(** [Animation.save] without frames raises before it writes. *)
Lemma save_no_frames self interval blit path f ax w2 :
  animation.save (mkFuncAnimation f (animate_state self [] f ax)
                                  0 blit interval) path w2 =
    (w2, Raise IndexError).
Proof. done. Qed.

(** [Animation.save] with blitting stops after the callback of the first
    frame, which returns no artists. *)
Lemma save_blit_raises self s0 rest interval path f ax w2 fg :
  ax_fig ax = f ->
  well_formed (_board_size self) (board s0) = true ->
  figs w2 !! f = Some fg ->
  is_Some (fig_axes fg !! ax_index ax) ->
  animation.save (mkFuncAnimation f (animate_state self (s0 :: rest) f ax)
                                  (length (s0 :: rest)) true interval)
                 path w2 =
    (set_figs (<[f := frames_on self (ax_index ax) [s0] fg]> (figs w2)) w2,
     Raise RuntimeError).
Proof.
  intros Hax Hwf Hfg Hlog.
  set (anim := mkFuncAnimation f (animate_state self (s0 :: rest) f ax)
                               (length (s0 :: rest)) true interval).
  unfold animation.save.
  change (anim_frames anim) with (S (length rest)). cbv beta iota.
  subst anim. unfold animation.draw_frame at 1. cbn [anim_func anim_blit].
  rewrite !bind_run.
  pose proof (frame_run self (s0 :: rest) f ax 0 s0 w2 fg Hax eq_refl Hwf
                Hfg Hlog) as Hfirst.
  change (Z.of_nat 0) with 0 in Hfirst. by rewrite Hfirst.
Qed.

Lemma files_blind_raise {A} (e : Exn) : files_blind (raise (A:=A) e).
Proof. by intros w fs. Qed.

Lemma files_blind_draw_frame (a : FuncAnimation) i :
  (forall j, files_blind (anim_func a j)) ->
  files_blind (animation.draw_frame a i).
Proof.
  intros Hfunc. unfold animation.draw_frame.
  apply files_blind_bind; [apply Hfunc|intros _].
  destruct (anim_blit a); [apply files_blind_raise|apply files_blind_ret].
Qed.

Lemma files_blind_for_each {A} (xs : list A) (body : A -> M unit) :
  (forall x, files_blind (body x)) -> files_blind (for_each xs body).
Proof.
  intros Hbody. induction xs as [|x xs IH]; cbn [for_each].
  - apply files_blind_ret.
  - apply files_blind_bind; [apply Hbody|by intros _].
Qed.

(** [Animation.save] touches the files in one way: it has written the
    animation at [path] when it returns, and nothing when it raises. *)
Lemma save_files_of (a : FuncAnimation) path w2 :
  (forall j, files_blind (anim_func a j)) ->
  match (animation.save a path w2).2 with
  | OK _ =>
      files (animation.save a path w2).1 =
        <[path := AnimationFile (anim_fig a) (anim_frames a) (anim_interval a)
                                (anim_blit a)]> (files w2)
  | Raise _ => files (animation.save a path w2).1 = files w2
  end.
Proof.
  intros Hfunc. unfold animation.save.
  set (first_draw := match anim_frames a with
                     | O => ret tt
                     | S _ => animation.draw_frame a 0
                     end).
  assert (files_blind first_draw) as Hb1.
  { unfold first_draw. destruct (anim_frames a);
      [apply files_blind_ret|by apply files_blind_draw_frame]. }
  rewrite bind_run.
  pose proof (files_blind_files first_draw w2 Hb1) as H1.
  destruct (first_draw w2) as [w3 [[]|e]]; cbn [fst snd] in *; [|done].
  rewrite bind_run.
  pose proof (files_blind_files
                (for_each (range 0 (Z.of_nat (anim_frames a)))
                          (animation.draw_frame a)) w3
                (files_blind_for_each _ _
                   (fun i => files_blind_draw_frame a i Hfunc))) as H2.
  destruct (for_each _ _ w3) as [w4 [[]|e]]; cbn [fst snd] in *;
    [|congruence].
  destruct (anim_frames a); cbn; congruence.
Qed.

Lemma save_files self states interval b path f ax w2 :
  let r := animation.save (mkFuncAnimation f (animate_state self states f ax)
                                           (length states) b interval)
                          path w2 in
  match r.2 with
  | OK _ => files r.1 =
              <[path := AnimationFile f (length states) interval b]> (files w2)
  | Raise _ => files r.1 = files w2
  end.
Proof.
  apply (save_files_of
           (mkFuncAnimation f (animate_state self states f ax) (length states)
                            b interval) path w2).
  intros j. apply files_blind_animate_state.
Qed.

(** [Animation.save] never returns when the driver blits: it has no frame
    to write, or the callback raises, or the callback returns and the
    driver misses the artists. *)
Lemma save_blit_never_returns (a : FuncAnimation) path w :
  anim_blit a = true -> (animation.save a path w).2 <> OK tt.
Proof.
  intros Hblit. unfold animation.save. destruct (anim_frames a) as [|n].
  - done.
  - rewrite bind_run. unfold animation.draw_frame at 1. rewrite bind_run.
    destruct (anim_func a 0 w) as [w' [[]|e]]; [|done]. by rewrite Hblit.
Qed.


(** X8.  A figure registered under the viewer's name that has no axes
    (opened by other code) makes [get_fig_ax] raise [IndexError] at
    [fig.get_axes()[0]].  [render] and [animate] then raise it too and do
    nothing else: no title, no drawing, no file, no stored animation; the
    figure only becomes the current one. *)
Theorem surface_without_axes_raises (self : Game2048Viewer) (st : State)
    (states : list State) (interval : Z) (blit save : bool) (path : string)
    (w : World) (fg : Figure) :
  figs w !! _name self = Some fg ->
  fig_axes fg = [] ->
  get_fig_ax self w = (set_current (Some (_name self)) w, Raise IndexError) /\
  render self st save path w =
    (set_current (Some (_name self)) w, Raise IndexError) /\
  animate states interval blit save path (self, w) =
    ((self, set_current (Some (_name self)) w), Raise IndexError).
Proof.
  intros Hfg Hax.
  pose proof (get_fig_ax_no_axes self w fg Hfg Hax) as Hget.
  split; [done|]. split.
  - unfold render. by rewrite bind_run, Hget.
  - by apply animate_raise.
Qed.

Lemma surface_without_axes_raises_witness :
  render (__init__ "2048" 4) example_state true "./2048.png" foreign_world =
    (set_current (Some "2048") foreign_world, Raise IndexError).
Proof.
  apply (surface_without_axes_raises (__init__ "2048" 4) example_state [] 200
           false true "./2048.png" foreign_world
           (mkFigure plt.default_figsize plt.default_facecolor [] []));
    by vm_compute.
Defined.

(** *** The [save] flag *)




(** *** The stored handle *)



(** *** The frames *)



(** *** The first title *)

Lemma fig_title_frames self i sts st fg :
  fig_title (frames_on self i (sts ++ [st]) fg) = Some (score_title st).
Proof.
  unfold fig_title, frames_on. cbn [fig_calls].
  rewrite fmap_app, app_assoc, omap_app. by apply last_snoc.
Qed.



(** *** What [animate] draws *)



(** ** Figures of other names *)

Lemma only_fig_bind {A B} f (m : M A) (k : A -> M B) :
  only_fig f m -> (forall a, only_fig f (k a)) -> only_fig f (bind m k).
Proof.
  intros Hm Hk w n Hn. unfold bind. specialize (Hm w n Hn).
  destruct (m w) as [w1 [a|e]]; cbn [fst] in *; [|done].
  by rewrite Hk.
Qed.

Lemma only_fig_ret {A} f (a : A) : only_fig f (ret a).
Proof. by intros w n Hn. Qed.

Lemma only_fig_on_fig f g : only_fig f (on_fig f g).
Proof.
  intros w n Hn. unfold on_fig. destruct (figs w !! f); [|done].
  cbn. by rewrite lookup_insert_ne.
Qed.

Lemma only_fig_on_ax {A} f ax (m : AxM A) :
  ax_fig ax = f -> only_fig f (on_ax ax m).
Proof.
  intros <- w n Hn. unfold on_ax. destruct (figs w !! ax_fig ax) as [fg|]; [|done].
  destruct (fig_axes fg !! ax_index ax) as [log|]; [|done].
  destruct (m log). cbn. by rewrite lookup_insert_ne.
Qed.

Lemma only_fig_savefig f path bbox pad : only_fig f (fig.savefig f path bbox pad).
Proof. intros w n Hn. unfold fig.savefig. by destruct (figs w !! f). Qed.

Lemma only_fig_display_human self f : only_fig f (_display_human self f).
Proof.
  unfold _display_human, fig.canvas_draw, fig.canvas_draw_idle,
    fig.canvas_start_event_loop.
  apply only_fig_bind; [by intros ???|intros inter]. destruct inter.
  - apply only_fig_bind; [apply only_fig_on_fig|intros _].
    apply only_fig_bind; [by intros ???|intros c].
    destruct c; [by intros ???|apply only_fig_ret].
  - apply only_fig_bind; [apply only_fig_on_fig|intros _].
    apply only_fig_on_fig.
Qed.

Lemma only_fig_for_each {A} f (xs : list A) (body : A -> M unit) :
  (forall x, only_fig f (body x)) -> only_fig f (for_each xs body).
Proof.
  intros Hbody. induction xs as [|x xs IH]; cbn [for_each].
  - apply only_fig_ret.
  - apply only_fig_bind; [apply Hbody|by intros _].
Qed.

Lemma only_fig_animate_state self states f ax i :
  ax_fig ax = f -> only_fig f (animate_state self states f ax i).
Proof.
  intros Hax. unfold animate_state.
  apply only_fig_bind; [by intros ???|intros st].
  apply only_fig_bind; [by apply only_fig_on_ax|intros _].
  apply only_fig_on_fig.
Qed.

Lemma only_fig_raise {A} f (e : Exn) : only_fig f (raise (A:=A) e).
Proof. by intros w n Hn. Qed.

Lemma only_fig_save (a : FuncAnimation) path :
  (forall i, only_fig (anim_fig a) (anim_func a i)) ->
  only_fig (anim_fig a) (animation.save a path).
Proof.
  intros Hfunc.
  assert (forall i, only_fig (anim_fig a) (animation.draw_frame a i)) as Hdraw.
  { intros i. unfold animation.draw_frame.
    apply only_fig_bind; [apply Hfunc|intros _].
    destruct (anim_blit a); [apply only_fig_raise|apply only_fig_ret]. }
  unfold animation.save. apply only_fig_bind.
  { destruct (anim_frames a); [apply only_fig_ret|apply Hdraw]. }
  intros _. apply only_fig_bind; [by apply only_fig_for_each|].
  intros _. destruct (anim_frames a); [apply only_fig_raise|by intros ???].
Qed.



(** ** [close] *)



(** ** The frame callback at the bounds *)

Lemma getitem_out_of_range {A} (xs : list A) (i : Z) :
  i < - Z.of_nat (length xs) \/ Z.of_nat (length xs) <= i ->
  getitem xs i = Raise IndexError.
Proof.
  intros Hi. unfold getitem.
  destruct (Z.ltb_spec i 0).
  - destruct (Z.leb_spec 0 (i + Z.of_nat (length xs))); [lia|done].
  - destruct (Z.leb_spec 0 i); [|lia].
    destruct (Z.ltb_spec i (Z.of_nat (length xs))); [lia|done].
Qed.

Lemma getitem_negative {A} (xs : list A) (i : Z) :
  - Z.of_nat (length xs) <= i < 0 ->
  getitem xs i = getitem xs (i + Z.of_nat (length xs)).
Proof.
  intros Hi. unfold getitem.
  destruct (Z.ltb_spec i 0); [|lia].
  destruct (Z.ltb_spec (i + Z.of_nat (length xs)) 0); [lia|done].
Qed.

(** X11.  The frame callback indexes [states] as Python does.  An index
    from [N] on, or below [-N], raises [IndexError] before anything is
    drawn or titled: the world is unchanged (for an empty [states] that is
    every index).  A negative index from [-N] counts from the end: the
    callback does what it does for the index plus [N]. *)
Theorem animate_state_at_the_bounds (self : Game2048Viewer)
    (states : list State) (f : string) (ax : AxHandle) (i : Z) (w0 : World) :
  (i < - Z.of_nat (length states) \/ Z.of_nat (length states) <= i ->
   animate_state self states f ax i w0 = (w0, Raise IndexError)) /\
  (- Z.of_nat (length states) <= i < 0 ->
   animate_state self states f ax i w0 =
     animate_state self states f ax (i + Z.of_nat (length states)) w0).
Proof.
  split; intros Hi; unfold animate_state; rewrite !bind_run; unfold lift_result.
  - by rewrite getitem_out_of_range.
  - by rewrite getitem_negative.
Qed.

Lemma animate_state_at_the_bounds_witness :
  animate_state (__init__ "2048" 4) [] "2048" (mkAx "2048" 0) 0
                (empty_world false false) =
    (empty_world false false, Raise IndexError) /\
  animate_state (__init__ "2048" 4) [example_state; second_state] "2048"
                (mkAx "2048" 0) (-1) (empty_world false false) =
    animate_state (__init__ "2048" 4) [example_state; second_state] "2048"
                  (mkAx "2048" 0) (-1 + 2) (empty_world false false).
Proof.
  split.
  - apply (proj1 (animate_state_at_the_bounds (__init__ "2048" 4) [] "2048"
                    (mkAx "2048" 0) 0 (empty_world false false))).
    cbn. lia.
  - apply (proj2 (animate_state_at_the_bounds (__init__ "2048" 4)
                    [example_state; second_state] "2048" (mkAx "2048" 0) (-1)
                    (empty_world false false))).
    cbn. lia.
Defined.

(** ** Which axes the boards land on *)



(** ** The title *)

Lemma int_truncates (q : Q) :
  (Qle 0 q -> Qle (inject_Z (int q)) q /\ Qlt q (inject_Z (int q + 1))) /\
  (Qle q 0 -> Qlt (inject_Z (int q - 1)) q /\ Qle q (inject_Z (int q))).
Proof.
  destruct q as [a d]. unfold int, Qle, Qlt, inject_Z. cbn [Qnum Qden].
  pose proof (Z.quot_rem' a (Z.pos d)) as Hrem.
  split; intros Ha.
  - assert (0 <= a) as Ha' by lia.
    pose proof (Z.rem_bound_pos a (Z.pos d) Ha' ltac:(lia)) as Hr.
    revert Hrem Hr. generalize (Z.quot a (Z.pos d)) (Z.rem a (Z.pos d)).
    intros k r Hrem Hr. split; nia.
  - assert (a <= 0) as Ha' by lia.
    pose proof (Z.rem_bound_pos_neg a (Z.pos d) ltac:(lia) Ha') as Hr.
    revert Hrem Hr. generalize (Z.quot a (Z.pos d)) (Z.rem a (Z.pos d)).
    intros k r Hrem Hr. split; nia.
Qed.

Lemma fig_title_flush t inter fg :
  fig_title (add_fig_calls (flush_calls inter)
               (add_fig_calls [FigSuptitle t 20] fg)) = Some t.
Proof.
  unfold fig_title. cbn [fig_calls add_fig_calls].
  rewrite !omap_app. destruct inter; cbn; rewrite app_nil_r; by apply last_snoc.
Qed.



(** ** How many patches and labels *)

Lemma length_cells n : length (cells n) = (Z.to_nat n * Z.to_nat n)%nat.
Proof.
  unfold cells, range. rewrite Z.sub_0_r.
  assert (forall rows cols : list Z,
            length (rows ≫= (fun row => (fun col => (row, col)) <$> cols)) =
              (length rows * length cols)%nat) as Hlen.
  { intros rows cols. induction rows as [|r rows IH]; [done|].
    rewrite bind_cons, length_app, length_fmap, IH. done. }
  by rewrite Hlen, length_seqZ.
Qed.

Lemma tile_trace_ok b cell :
  cell_ok b cell = true ->
  exists v c color size,
    board_getitem b cell.1 cell.2 = OK v /\
    tile_trace b cell =
      patch cell.1 cell.2 c ::
        (if v =? 0 then []
         else [AxText cell.2 cell.1 (str v) color "center" "center" size "bold"]).
Proof.
  unfold cell_ok, tile_trace.
  destruct (board_getitem b cell.1 cell.2) as [v|e]; [|done]. intros Hv.
  assert (exists c, (if v <=? 16384 then COLORS !! KInt v
                     else COLORS !! KStr "other") = Some c) as [c Hc].
  { unfold renderable in Hv. apply orb_true_iff in Hv as [H|H].
    - apply bool_decide_eq_true in H.
      destruct (palette_values_key v H) as [c Hc].
      pose proof (palette_values_bound v H).
      exists c. destruct (Z.leb_spec v 16384); [done|lia].
    - apply Z.ltb_lt in H. exists overflow.
      destruct (Z.leb_spec v 16384); [lia|done]. }
  destruct (render_tile_from_patch v cell.1 cell.2 c [] Hc) as (color & _ & ->).
  by exists v, c, color, (label_style v).2.
Qed.

Lemma count_calls_app p l1 l2 :
  count_calls p (l1 ++ l2) = (count_calls p l1 + count_calls p l2)%nat.
Proof. unfold count_calls. by rewrite List.filter_app, length_app. Qed.

Lemma count_tiles b (l : list (Z * Z)) :
  forallb (cell_ok b) l = true ->
  count_calls is_patch (l ≫= tile_trace b) = length l /\
  count_calls is_text (l ≫= tile_trace b) = length (List.filter (occupied b) l).
Proof.
  induction l as [|cell l IH]; [done|]. cbn [forallb].
  intros [Hcell Hl]%andb_true_iff. destruct (IH Hl) as [IHp IHt].
  rewrite bind_cons, !count_calls_app, IHp, IHt.
  destruct (tile_trace_ok b cell Hcell) as (v & c & color & size & Hv & ->).
  cbn [List.filter]. unfold occupied. rewrite Hv.
  destruct (v =? 0); by split.
Qed.

(** X15.  On a well-formed board [draw_board] adds exactly one patch for
    each of the [board_size] times [board_size] cells and exactly one text
    label for each cell that holds a value other than 0: empty cells are
    coloured and not labelled. *)
Theorem draw_board_counts (self : Game2048Viewer) (st : State) :
  well_formed (_board_size self) (board st) = true ->
  count_calls is_patch (draw_board self st []).1 =
    (Z.to_nat (_board_size self) * Z.to_nat (_board_size self))%nat /\
  count_calls is_text (draw_board self st []).1 =
    length (List.filter (occupied (board st)) (cells (_board_size self))).
Proof.
  intros Hwf. rewrite (draw_board_ok self st [] Hwf). cbn [fst app].
  destruct (count_tiles (board st) (cells (_board_size self)) Hwf) as [Hp Ht].
  unfold board_calls. rewrite !count_calls_app, Hp, Ht, length_cells.
  split; cbn; lia.
Qed.

Lemma draw_board_counts_witness :
  count_calls is_patch (draw_board (__init__ "2048" 4) example_state []).1
    = 16%nat /\
  count_calls is_text (draw_board (__init__ "2048" 4) example_state []).1
    = 2%nat.
Proof.
  apply (draw_board_counts (__init__ "2048" 4) example_state). by vm_compute.
Defined.
